(** * The YouTube channel notifier (observer pattern)

    A shallow embedding of [observer/interfaces.py], [observer/observers.py]
    and [observer/subject.py]; [observer_pattern.py] holds the same classes,
    and the demo [main()], in one file.

    Python objects are references: an address (the object's identity, what
    [is] and the default [__eq__] compare) together with the object found
    there.  None of the classes of the repository overrides [__eq__], so the
    membership test [in] and [list.remove] compare addresses.

    A method of the channel is a computation in a small monad: it reads and
    writes the fields of [self], emits observable events (lines printed, and
    the calls of [update] it performs), and either returns a value or raises
    an exception.

    [update] is client code.  It is called with two strings, but the client
    may hold the channel, and call [attach] and [detach] on it while [notify]
    is running: a callback is modelled by what it prints, whom it subscribes
    and unsubscribes, in the order in which it does so, and the exception it
    ends with, if any, all of which may depend on the observer and on the two
    strings.  A callback that publishes from within a fan-out
    ([upload_video] or [notify] inside [update]) is left out; the properties
    of a fan-out below are stated for callbacks that do not call the channel
    at all ([inert]), or that subscribe nobody ([no_attach]). *)

From stdpp Require Import base list strings pretty.

Open Scope string_scope.
Open Scope list_scope.

(** ** Objects, exceptions and events *)

(** A raised Python exception, by its message. *)
Inductive exn :=
| ValueError (msg : string)
| Exception (msg : string).

(** An object of some class that implements [Observer], as its bound
    methods [update] and [__str__]; what a call of [update] does (its steps,
    then the exception it raises, if any); a step of a callback:
    [print(line)], [channel.attach(observer)], or [channel.detach(x)] for the
    object [x] of identity [a]; and a reference to an observer, its identity
    and the object. *)
Inductive object : Type :=
| MkObject (update_of : string → string → outcome) (str_of : string)
with outcome : Type :=
| Reaction (steps : list step) (raised : option exn)
with step : Type :=
| Say (line : string)
| DoAttach (observer : ref)
| DoDetach (a : nat)
with ref : Type :=
| Ref (addr : nat) (obj : object).

Definition addr (r : ref) : nat := match r with Ref a _ => a end.
Definition obj (r : ref) : object := match r with Ref _ o => o end.
Definition steps (o : outcome) : list step := match o with Reaction sts _ => sts end.
Definition raised (o : outcome) : option exn := match o with Reaction _ e => e end.

(** The lines a callback prints itself. *)
Fixpoint said (sts : list step) : list string :=
  match sts with
  | [] => []
  | Say line :: sts' => line :: said sts'
  | _ :: sts' => said sts'
  end.
Definition printed (o : outcome) : list string := said (steps o).

(** A callback that prints [lines] and returns, or raises [e]. *)
Definition Outcome (lines : list string) (e : option exn) : outcome :=
  Reaction (Say <$> lines) e.

(** [interfaces.py], class [Observer]: the abstract method [update]; [to_str]
    is [__str__], which [attach] and [detach] use in their message. *)
Class Observer (A : Type) := {
  update : A → string → string → outcome;
  to_str : A → string
}.

(** [observers.py], class [EmailSubscriber]. *)
Record EmailSubscriber := { _email : string }.

#[export] Instance EmailSubscriber_Observer : Observer EmailSubscriber := {
  update self video_title channel_name :=
    Outcome [ "📧 Email sent to " +:+ _email self +:+ ":";
              "   '" +:+ channel_name +:+ "' uploaded '" +:+ video_title +:+ "'" ]
            None;
  to_str self := "EmailSubscriber(" +:+ _email self +:+ ")"
}.

(** [observers.py], class [MobileAppSubscriber]. *)
Record MobileAppSubscriber := { _username : string }.

#[export] Instance MobileAppSubscriber_Observer : Observer MobileAppSubscriber := {
  update self video_title channel_name :=
    Outcome [ "📱 Push notification to @" +:+ _username self +:+ ":";
              "   New video from " +:+ channel_name +:+ ": '" +:+ video_title +:+ "'" ]
            None;
  to_str self := "MobileAppSubscriber(@" +:+ _username self +:+ ")"
}.

(** [observers.py], class [SMSSubscriber]. *)
Record SMSSubscriber := { _phone_number : string }.

#[export] Instance SMSSubscriber_Observer : Observer SMSSubscriber := {
  update self video_title channel_name :=
    Outcome [ "💬 SMS to " +:+ _phone_number self +:+ ":";
              "   " +:+ channel_name +:+ ": '" +:+ video_title +:+ "'" ]
            None;
  to_str self := "SMSSubscriber(" +:+ _phone_number self +:+ ")"
}.

(** The object [self] of a class that implements [Observer]. *)
Definition Object {A} `{Observer A} (self : A) : object :=
  MkObject (update self) (to_str self).

Definition call_update (o : object) (video_title channel_name : string) : outcome :=
  match o with
  | MkObject update_of _ => update_of video_title channel_name
  end.

Definition str (o : object) : string :=
  match o with
  | MkObject _ str_of => str_of
  end.

(** Object construction: every constructor call yields a new identity.  The
    allocator is the next free address. *)
Definition new {A} `{Observer A} (self : A) (next : nat) : ref * nat :=
  (Ref next (Object self), S next).

(** What a method call lets the world observe, in order. *)
Inductive event :=
| Printed (line : string)
| Invoked (a : nat) (video_title channel_name : string).

(** [x == y] on observers: the default [object.__eq__], identity. *)
Definition py_eq (x y : ref) : bool := bool_decide (addr x = addr y).

(** [x in l] on a list. *)
Fixpoint list_contains (x : ref) (l : list ref) : bool :=
  match l with
  | [] => false
  | y :: l' => py_eq y x || list_contains x l'
  end.

(** [l.remove(x)]: drops the first item equal to [x]; [None] stands for the
    [ValueError] Python raises when there is none. *)
Fixpoint list_remove (x : ref) (l : list ref) : option (list ref) :=
  match l with
  | [] => None
  | y :: l' => if py_eq y x then Some l' else cons y <$> list_remove x l'
  end.

(** ** The channel *)

(** [subject.py], the fields [YouTubeChannel.__init__] sets. *)
Record YouTubeChannel := {
  _channel_name : string;
  _subscribers : list ref;
  _latest_video : string
}.

Definition __init__ (channel_name : string) : YouTubeChannel :=
  {| _channel_name := channel_name; _subscribers := []; _latest_video := "" |}.

(** The method monad: from [self] to a result (a value or a raised
    exception), the new [self] and the events emitted.  Writes made before an
    exception is raised stay. *)
Definition M (A : Type) : Type := YouTubeChannel → (A + exn) * YouTubeChannel * list event.

Definition ret {A} (a : A) : M A := λ s, (inl a, s, []).

Definition bind {A B} (m : M A) (k : A → M B) : M B := λ s,
  match m s with
  | (inl a, s', ev) => let '(r, s'', ev') := k a s' in (r, s'', ev ++ ev')
  | (inr e, s', ev) => (inr e, s', ev)
  end.

Declare Scope method_scope.
Delimit Scope method_scope with method.
Notation "'let*' x ':=' m 'in' k" := (bind m (λ x, k))
  (at level 10, x name, m at level 100, k at level 200) : method_scope.
Notation "m ;; k" := (bind m (λ _, k))
  (at level 100, k at level 200, right associativity) : method_scope.

Definition raise {A} (e : exn) : M A := λ s, (inr e, s, []).
Definition print (line : string) : M unit := λ s, (inl tt, s, [Printed line]).
Definition get {A} (field : YouTubeChannel → A) : M A := λ s, (inl (field s), s, []).

(** [self._subscribers = l] and [self._latest_video = v]. *)
Definition with_subscribers (l : list ref) (s : YouTubeChannel) : YouTubeChannel :=
  {| _channel_name := _channel_name s; _subscribers := l;
     _latest_video := _latest_video s |}.
Definition with_latest_video (v : string) (s : YouTubeChannel) : YouTubeChannel :=
  {| _channel_name := _channel_name s; _subscribers := _subscribers s;
     _latest_video := v |}.
Definition set_subscribers (l : list ref) : M unit := λ s, (inl tt, with_subscribers l s, []).
Definition set_latest_video (v : string) : M unit := λ s, (inl tt, with_latest_video v s, []).

Section methods.
Local Open Scope method_scope.

Definition attach (observer : ref) : M unit :=
  let* subscribers := get _subscribers in
  if negb (list_contains observer subscribers) then
    (set_subscribers (subscribers ++ [observer]) ;;
     let* channel_name := get _channel_name in
     print ("✓ " +:+ str (obj observer) +:+ " subscribed to " +:+ channel_name))
  else ret tt.

Definition detach (observer : ref) : M unit :=
  let* subscribers := get _subscribers in
  if list_contains observer subscribers then
    (match list_remove observer subscribers with
     | Some l => set_subscribers l
     | None => raise (ValueError "list.remove(x): x not in list")
     end ;;
     let* channel_name := get _channel_name in
     print ("✗ " +:+ str (obj observer) +:+ " unsubscribed from " +:+ channel_name))
  else ret tt.

(** [channel.detach(x)] made by a callback, for the object [x] of identity
    [a]: when [x] is subscribed it is the entry of the list with that
    identity; when it is not, [detach] does nothing. *)
Definition detach_addr (a : nat) : M unit :=
  let* subscribers := get _subscribers in
  match find (λ y, bool_decide (addr y = a)) subscribers with
  | Some x => detach x
  | None => ret tt
  end.

(** What a callback does, step by step, to the channel that called it. *)
Fixpoint react (sts : list step) : M unit :=
  match sts with
  | [] => ret tt
  | Say line :: sts' => print line ;; react sts'
  | DoAttach observer :: sts' => attach observer ;; react sts'
  | DoDetach a :: sts' => detach_addr a ;; react sts'
  end.

(** The record of a call of [update]. *)
Definition called (subscriber : ref) (video_title channel_name : string) : M unit := λ s,
  (inl tt, s, [Invoked (addr subscriber) video_title channel_name]).

(** [subscriber.update(video_title, channel_name)]: the call is recorded,
    the callback runs its steps on the channel, and returns or raises. *)
Definition invoke (subscriber : ref) (video_title channel_name : string) : M unit :=
  called subscriber video_title channel_name ;;
  react (steps (call_update (obj subscriber) video_title channel_name)) ;;
  match raised (call_update (obj subscriber) video_title channel_name) with
  | None => ret tt
  | Some e => raise e
  end.

(** [for subscriber in self._subscribers: body]: Python's list iterator
    keeps an index into the list itself; every round it stops if the index
    is past the end of the list as it is then, and else takes the entry at
    the index and moves on by one.  An exception raised by the body ends the
    loop.  [rounds] bounds the number of rounds, for Rocq's sake. *)
Fixpoint for_each_subscriber (rounds : nat) (i : nat) (body : ref → M unit) : M unit :=
  λ s,
  match rounds with
  | 0 => ret tt s
  | S rounds' =>
      match _subscribers s !! i with
      | None => ret tt s
      | Some subscriber => (body subscriber ;; for_each_subscriber rounds' (S i) body) s
      end
  end.

End methods.

(** The rounds a loop over the subscribers can take: an observer is good for
    its own call and for the calls of the observers its callback subscribes
    (on the payload [v], [c]). *)
Fixpoint weight (v c : string) (o : object) : nat :=
  match o with
  | MkObject update_of _ =>
      match update_of v c with
      | Reaction sts _ =>
          S ((fix go (l : list step) : nat :=
                match l with
                | [] => 0
                | DoAttach (Ref _ o') :: l' => weight v c o' + go l'
                | _ :: l' => go l'
                end) sts)
      end
  end.

(** The rounds still needed from index [i] on: enough for the loop of
    [notify] to end by itself ([for_each_subscriber_rounds] below). *)
Definition budget (i : nat) (s : YouTubeChannel) : nat :=
  sum_list_with (λ r, weight (_latest_video s) (_channel_name s) (obj r))
                (drop i (_subscribers s)).

Section methods.
Local Open Scope method_scope.

Definition notify : M unit :=
  let* subscribers := get _subscribers in
  print ("
🔔 Notifying " +:+ pretty (length subscribers) +:+ " subscribers...") ;;
  let* rounds := get (budget 0) in
  for_each_subscriber rounds 0 (λ subscriber,
    let* latest_video := get _latest_video in
    let* channel_name := get _channel_name in
    invoke subscriber latest_video channel_name).

Definition upload_video (video_title : string) : M unit :=
  let* channel_name := get _channel_name in
  print ("
📹 " +:+ channel_name +:+ " uploaded: '" +:+ video_title +:+ "'") ;;
  set_latest_video video_title ;;
  notify.

Definition channel_name : M string := get _channel_name.

End methods.

(** ** Reading the result of a call *)

Definition result {A} (r : (A + exn) * YouTubeChannel * list event) : A + exn := r.1.1.
Definition state {A} (r : (A + exn) * YouTubeChannel * list event) : YouTubeChannel := r.1.2.
Definition events {A} (r : (A + exn) * YouTubeChannel * list event) : list event := r.2.

(** The calls of [update] among the events, in order. *)
Fixpoint invocations (ev : list event) : list (nat * string * string) :=
  match ev with
  | [] => []
  | Printed _ :: ev' => invocations ev'
  | Invoked a v c :: ev' => (a, v, c) :: invocations ev'
  end.

(** The payloads that the observer at address [a] is called with, among
    the calls [calls] and among the events [ev]. *)
Definition received_of (a : nat) (calls : list (nat * string * string)) :
    list (string * string) :=
  (λ i, (i.1.2, i.2)) <$> filter (λ i, i.1.1 = a) calls.

Definition received (a : nat) (ev : list event) : list (string * string) :=
  received_of a (invocations ev).

(** The observers of a given list called one after the other: what the loop
    of [notify] comes to when no callback edits the subscriber list
    ([notify_visit] below). *)
Fixpoint visit (l : list ref) : M unit :=
  match l with
  | [] => ret tt
  | subscriber :: l' =>
      (let* latest_video := get _latest_video in
       let* channel_name := get _channel_name in
       invoke subscriber latest_video channel_name) ;;
      visit l'
  end%method.

(** The call of [update] that [notify] makes on the subscriber [r]. *)
Definition delivery (s : YouTubeChannel) (r : ref) : nat * string * string :=
  (addr r, _latest_video s, _channel_name s).

Definition addrs (l : list ref) : list nat := addr <$> l.

(** The observer's callback returns on this payload. *)
Definition returns (video_title channel_name : string) (r : ref) : Prop :=
  raised (call_update (obj r) video_title channel_name) = None.

(** The observer's callback does not call the channel on this payload: all
    it does is print, and return or raise. *)
Definition inert (video_title channel_name : string) (r : ref) : Prop :=
  steps (call_update (obj r) video_title channel_name) =
  Say <$> printed (call_update (obj r) video_title channel_name).

(** The observer's callback subscribes nobody on this payload. *)
Definition no_attach (video_title channel_name : string) (r : ref) : Prop :=
  Forall (λ st, ∀ observer, st ≠ DoAttach observer)
         (steps (call_update (obj r) video_title channel_name)).

(** The observer's callback never calls the channel, whatever the payload. *)
Definition peaceful (o : object) : Prop :=
  ∀ video_title channel_name,
    steps (call_update o video_title channel_name) =
    Say <$> printed (call_update o video_title channel_name).

(** ** Sequences of calls made by a client *)

Inductive call :=
| Attach (observer : ref)
| Detach (observer : ref)
| UploadVideo (video_title : string)
| Notify
| ChannelName.

Definition perform (c : call) : M unit :=
  match c with
  | Attach observer => attach observer
  | Detach observer => detach observer
  | UploadVideo video_title => upload_video video_title
  | Notify => notify
  | ChannelName => (channel_name ;; ret tt)%method
  end.

(** The channel after the calls [cs], made one after the other (a client
    that catches an exception goes on with the channel as the call left it). *)
Fixpoint run (cs : list call) (s : YouTubeChannel) : YouTubeChannel :=
  match cs with
  | [] => s
  | c :: cs' => run cs' (state (perform c s))
  end.

(** ** The demo: [main()] of [observer_pattern.py] *)

Definition subscriber1 := (new {| _email := "alice@example.com" |} 0).1.
Definition subscriber2 := (new {| _username := "bob_dev" |} 1).1.
Definition subscriber3 := (new {| _phone_number := "+7-777-123-4567" |} 2).1.
Definition subscriber4 := (new {| _email := "charlie@example.com" |} 3).1.

Definition main : M unit :=
  (attach subscriber1 ;;
   attach subscriber2 ;;
   attach subscriber3 ;;
   upload_video "Python Design Patterns Tutorial" ;;
   detach subscriber2 ;;
   upload_video "Advanced Observer Pattern Explained" ;;
   attach subscriber4 ;;
   upload_video "Clean Code Principles in Python")%method.

(** The channel of the demo once its first three subscribers are attached. *)
Definition tech_channel : YouTubeChannel :=
  run [Attach subscriber1; Attach subscriber2; Attach subscriber3] (__init__ "TechMaster").

(** An observer class of a client, whose callback raises. *)
Record FailingSubscriber := { _error : string }.

#[export] Instance FailingSubscriber_Observer : Observer FailingSubscriber := {
  update self video_title channel_name := Outcome [] (Some (Exception (_error self)));
  to_str self := "FailingSubscriber(" +:+ _error self +:+ ")"
}.

Definition failing_subscriber := (new {| _error := "delivery failed" |} 7).1.

(** A channel whose first subscriber fails and whose second does not. *)
Definition flaky_channel : YouTubeChannel :=
  run [Attach failing_subscriber; Attach subscriber1] (__init__ "TechMaster").

(** A channel whose second subscriber fails, between two that do not. *)
Definition patchy_channel : YouTubeChannel :=
  run [Attach subscriber1; Attach failing_subscriber; Attach subscriber3]
      (__init__ "TechMaster").

(** An observer class of a client, whose callback unsubscribes the observer
    itself ([self.channel.detach(self)]); [_me] is the identity of [self]. *)
Record LeavingSubscriber := { _me : nat }.

#[export] Instance LeavingSubscriber_Observer : Observer LeavingSubscriber := {
  update self video_title channel_name := Reaction [DoDetach (_me self)] None;
  to_str self := "LeavingSubscriber(" +:+ pretty (_me self) +:+ ")"
}.

Definition leaving_subscriber := (new {| _me := 20 |} 20).1.

(** A channel whose first subscriber leaves when it is notified. *)
Definition leaving_channel : YouTubeChannel :=
  run [Attach leaving_subscriber; Attach subscriber2; Attach subscriber3]
      (__init__ "TechMaster").

(** A channel with a subscriber before the one that leaves. *)
Definition crowded_channel : YouTubeChannel :=
  run [Attach subscriber1; Attach leaving_subscriber; Attach subscriber2; Attach subscriber3]
      (__init__ "TechMaster").

(** An observer class of a client, whose callback subscribes a friend
    ([self.channel.attach(self.friend)]). *)
Record RecruitingSubscriber := { _friend : ref }.

#[export] Instance RecruitingSubscriber_Observer : Observer RecruitingSubscriber := {
  update self video_title channel_name := Reaction [DoAttach (_friend self)] None;
  to_str self := "RecruitingSubscriber(" +:+ str (obj (_friend self)) +:+ ")"
}.

Definition recruiting_subscriber := (new {| _friend := subscriber4 |} 30).1.

(** A channel whose only subscriber brings in the fourth of the demo. *)
Definition recruiting_channel : YouTubeChannel :=
  run [Attach recruiting_subscriber] (__init__ "TechMaster").

(** ** The observer classes of the repository *)

(** The objects of the three classes of [observers.py]. *)
Inductive repo_class : object → Prop :=
| repo_EmailSubscriber (self : EmailSubscriber) : repo_class (Object self)
| repo_MobileAppSubscriber (self : MobileAppSubscriber) : repo_class (Object self)
| repo_SMSSubscriber (self : SMSSubscriber) : repo_class (Object self).

(** The lines printed among the events, in order. *)
Fixpoint printed_lines (ev : list event) : list string :=
  match ev with
  | [] => []
  | Printed line :: ev' => line :: printed_lines ev'
  | Invoked _ _ _ :: ev' => printed_lines ev'
  end.

(** What one call of [update] on [r] shows: the call, then its lines. *)
Definition transcript_of (s : YouTubeChannel) (r : ref) : list event :=
  Invoked (addr r) (_latest_video s) (_channel_name s)
    :: (Printed <$> printed (call_update (obj r) (_latest_video s) (_channel_name s))).

(** [l] after [if x in l: l.remove(x)]. *)
Definition remove_first (x : ref) (l : list ref) : list ref :=
  default l (list_remove x l).

(** ** Call sequences, read as a client would *)

(** Whether the observer of identity [a] is subscribed after the calls [cs],
    given whether it was before: its last [attach] or [detach] decides. *)
Fixpoint subscribed_after (a : nat) (cs : list call) (before : bool) : bool :=
  match cs with
  | [] => before
  | Attach observer :: cs' =>
      subscribed_after a cs' (if bool_decide (addr observer = a) then true else before)
  | Detach observer :: cs' =>
      subscribed_after a cs' (if bool_decide (addr observer = a) then false else before)
  | _ :: cs' => subscribed_after a cs' before
  end.


(** ** [main()] of [observer_pattern.py], with its banners *)

(** [s * n] on strings. *)
Fixpoint str_mul (s : string) (n : nat) : string :=
  match n with
  | 0 => ""
  | S n' => s +:+ str_mul s n'
  end.

Module Demo.

(** [main()] of [observer_pattern.py]: the prints and the calls on
    [tech_channel], from its construction on.  ([main.py] has the same
    body, but imports the classes from a package [observer] whose file is
    [init.py], and does not get as far as [main()].) *)
Definition main : (unit + exn) * YouTubeChannel * list event :=
  (print (str_mul "=" 60) ;;
   print "OBSERVER PATTERN DEMO - YouTube Notification System" ;;
   print (str_mul "=" 60) ;;
   print "
--- Subscribing Users ---" ;;
   attach subscriber1 ;;
   attach subscriber2 ;;
   attach subscriber3 ;;
   upload_video "Python Design Patterns Tutorial" ;;
   print "
--- Unsubscribing One User ---" ;;
   detach subscriber2 ;;
   upload_video "Advanced Observer Pattern Explained" ;;
   print "
--- Adding New Subscriber ---" ;;
   attach subscriber4 ;;
   upload_video "Clean Code Principles in Python" ;;
   print ("
" +:+ str_mul "=" 60) ;;
   print "DEMO COMPLETED" ;;
   print (str_mul "=" 60))%method (__init__ "TechMaster").

End Demo.

(** ** Auxiliary notions for the loop of [notify] *)

(** What a step of a callback does to the subscriber list. *)
Definition edit (l : list ref) (st : step) : list ref :=
  match st with
  | Say _ => l
  | DoAttach observer => if list_contains observer l then l else l ++ [observer]
  | DoDetach a =>
      match find (λ y, bool_decide (addr y = a)) l with
      | Some x => remove_first x l
      | None => l
      end
  end.

Definition edits (sts : list step) (l : list ref) : list ref := foldl edit l sts.

(** The rounds that the observers subscribed by these steps are good for. *)
Fixpoint attach_weight (v c : string) (sts : list step) : nat :=
  match sts with
  | [] => 0
  | DoAttach observer :: sts' => weight v c (obj observer) + attach_weight v c sts'
  | _ :: sts' => attach_weight v c sts'
  end.

(** One step of a callback, as [react] runs it. *)
Definition perform_step (st : step) : M unit :=
  match st with
  | Say line => print line
  | DoAttach observer => attach observer
  | DoDetach a => detach_addr a
  end.

(** The body of the loop of [notify]. *)
Definition update_subscriber (subscriber : ref) : M unit :=
  (let* latest_video := get _latest_video in
   let* channel_name := get _channel_name in
   invoke subscriber latest_video channel_name)%method.

(** The loop of [notify] from index [i] on. *)
Definition fan_out_from (i : nat) : M unit := λ s,
  for_each_subscriber (budget i s) i update_subscriber s.

(** ** Membership and removal on the subscriber list *)

Lemma list_contains_addrs x l : list_contains x l = true ↔ addr x ∈ addrs l.
Proof.
  induction l as [|y l IH]; simpl.
  - split; [done | by intros ?%elem_of_nil].
  - rewrite orb_true_iff, IH, elem_of_cons. unfold py_eq.
    rewrite bool_decide_eq_true. intuition congruence.
Qed.

Lemma list_contains_false x l : list_contains x l = false ↔ addr x ∉ addrs l.
Proof. rewrite <- list_contains_addrs. by destruct (list_contains x l). Qed.

(** [list.remove] finds an item exactly when [in] does: the first one. *)
Lemma list_remove_Some x l :
  list_contains x l = true →
  ∃ l1 y l2, l = l1 ++ y :: l2 ∧ addr y = addr x ∧ (addr x ∉ addrs l1) ∧
             list_remove x l = Some (l1 ++ l2).
Proof.
  induction l as [|y l IH]; simpl; [done |].
  unfold py_eq. case_bool_decide as Hy; simpl.
  - intros _. exists nil, y, l. split_and!; try done. by intros ?%elem_of_nil.
  - intros (l1 & z & l2 & -> & Hz & Hl1 & ->)%IH.
    exists (y :: l1), z, l2. split_and!; try done.
    simpl. rewrite elem_of_cons. intuition congruence.
Qed.

Lemma list_remove_None x l : list_contains x l = false → list_remove x l = None.
Proof.
  induction l as [|y l IH]; simpl; [done |].
  intros [-> Hl]%orb_false_iff. by rewrite IH.
Qed.

Lemma remove_first_cons x y l :
  remove_first x (y :: l) = if py_eq y x then l else y :: remove_first x l.
Proof.
  unfold remove_first. cbn [list_remove].
  destruct (py_eq y x); [done |]. by destruct (list_remove x l).
Qed.

Lemma remove_first_absent x l : addr x ∉ addrs l → remove_first x l = l.
Proof.
  intros Hx%list_contains_false. unfold remove_first. by rewrite list_remove_None.
Qed.

Lemma remove_first_sublist x l : remove_first x l `sublist_of` l.
Proof.
  induction l as [|y l IH]; [done |].
  rewrite remove_first_cons. destruct (py_eq y x).
  - by apply sublist_cons.
  - by apply sublist_skip.
Qed.

(** ** What each method does, in closed form *)

Lemma with_subscribers_id s : with_subscribers (_subscribers s) s = s.
Proof. by destruct s. Qed.

Lemma attach_present observer s :
  list_contains observer (_subscribers s) = true →
  attach observer s = (inl tt, s, []).
Proof. intros H. unfold attach, bind, get. simpl. by rewrite H. Qed.

Lemma attach_absent observer s :
  list_contains observer (_subscribers s) = false →
  attach observer s =
    (inl tt, with_subscribers (_subscribers s ++ [observer]) s,
     [Printed ("✓ " +:+ str (obj observer) +:+ " subscribed to " +:+ _channel_name s)]).
Proof. intros H. unfold attach, bind, get. simpl. by rewrite H. Qed.

Lemma detach_absent observer s :
  list_contains observer (_subscribers s) = false →
  detach observer s = (inl tt, s, []).
Proof. intros H. unfold detach, bind, get. simpl. by rewrite H. Qed.

Lemma detach_present observer s :
  list_contains observer (_subscribers s) = true →
  ∃ l1 y l2, _subscribers s = l1 ++ y :: l2 ∧ addr y = addr observer ∧
             (addr observer ∉ addrs l1) ∧
  detach observer s =
    (inl tt, with_subscribers (l1 ++ l2) s,
     [Printed ("✗ " +:+ str (obj observer) +:+ " unsubscribed from " +:+ _channel_name s)]).
Proof.
  intros H. destruct (list_remove_Some _ _ H) as (l1 & y & l2 & Hs & Hy & Hl1 & Hr).
  exists l1, y, l2. split_and!; try done.
  unfold detach, bind, get. simpl. by rewrite H, Hr.
Qed.

Lemma detach_present_remove_first observer s :
  list_contains observer (_subscribers s) = true →
  detach observer s =
    (inl tt, with_subscribers (remove_first observer (_subscribers s)) s,
     [Printed ("✗ " +:+ str (obj observer) +:+ " unsubscribed from " +:+ _channel_name s)]).
Proof.
  intros E. destruct (list_remove_Some _ _ E) as (l1 & y & l2 & Hs & _ & _ & Hr).
  unfold detach, bind, get, remove_first. simpl. by rewrite E, Hr.
Qed.

Lemma attach_subscribers observer s :
  state (attach observer s) =
    with_subscribers (if list_contains observer (_subscribers s)
                      then _subscribers s else _subscribers s ++ [observer]) s.
Proof.
  destruct (list_contains observer (_subscribers s)) eqn:E.
  - by rewrite attach_present, with_subscribers_id.
  - by rewrite attach_absent.
Qed.

Lemma detach_subscribers observer s :
  state (detach observer s) = with_subscribers (remove_first observer (_subscribers s)) s.
Proof.
  destruct (list_contains observer (_subscribers s)) eqn:E.
  - by rewrite detach_present_remove_first.
  - rewrite detach_absent by done. apply list_contains_false in E.
    by rewrite remove_first_absent, with_subscribers_id.
Qed.

Lemma attach_result observer s : result (attach observer s) = inl tt.
Proof.
  destruct (list_contains observer (_subscribers s)) eqn:E.
  - by rewrite attach_present.
  - by rewrite attach_absent.
Qed.

Lemma detach_result observer s : result (detach observer s) = inl tt.
Proof.
  destruct (list_contains observer (_subscribers s)) eqn:E.
  - by rewrite detach_present_remove_first.
  - by rewrite detach_absent.
Qed.

Lemma attach_state observer s :
  ∃ l, state (attach observer s) = with_subscribers l s.
Proof. eexists. apply attach_subscribers. Qed.

Lemma detach_state observer s :
  ∃ l, state (detach observer s) = with_subscribers l s.
Proof. eexists. apply detach_subscribers. Qed.

Lemma invocations_app ev1 ev2 :
  invocations (ev1 ++ ev2) = invocations ev1 ++ invocations ev2.
Proof.
  induction ev1 as [|[line|a v c] ev1 IH]; simpl; [done | done |]. by rewrite IH.
Qed.

Lemma invocations_Printed lines : invocations (Printed <$> lines) = [].
Proof. by induction lines. Qed.

Lemma attach_invocations observer s : invocations (events (attach observer s)) = [].
Proof.
  destruct (list_contains observer (_subscribers s)) eqn:E.
  - by rewrite attach_present.
  - by rewrite attach_absent.
Qed.

Lemma detach_invocations observer s : invocations (events (detach observer s)) = [].
Proof.
  destruct (list_contains observer (_subscribers s)) eqn:E.
  - by rewrite detach_present_remove_first.
  - by rewrite detach_absent.
Qed.

(** ** Calls in a row *)

Lemma result_of {A} (r : A + exn) s ev : result (r, s, ev) = r.
Proof. done. Qed.

Lemma state_of {A} (r : A + exn) s ev : state (r, s, ev) = s.
Proof. done. Qed.

Lemma events_of {A} (r : A + exn) s ev : events (r, s, ev) = ev.
Proof. done. Qed.

(** Two calls in a row, when the first returns. *)
Lemma bind_returns {A B} (m : M A) (k : A → M B) s a :
  result (m s) = inl a →
  bind m k s = (result (k a (state (m s))), state (k a (state (m s))),
                events (m s) ++ events (k a (state (m s)))).
Proof.
  unfold bind, result, state, events. destruct (m s) as [[res s'] ev]. cbn.
  intros ->. by destruct (k a s') as [[res' s''] ev'].
Qed.

Lemma bind_events {A B} (m : M A) (k : A → M B) s :
  events (bind m k s) =
    events (m s) ++ match result (m s) with
                    | inl a => events (k a (state (m s)))
                    | inr _ => []
                    end.
Proof.
  unfold bind, result, state, events. destruct (m s) as [[[a|e] s'] ev]; cbn.
  - by destruct (k a s') as [[res' s''] ev'].
  - by rewrite app_nil_r.
Qed.

(** ** What a callback does to the channel *)

Lemma with_subscribers_twice l1 l2 s :
  with_subscribers l2 (with_subscribers l1 s) = with_subscribers l2 s.
Proof. done. Qed.

Lemma perform_step_spec st s :
  result (perform_step st s) = inl tt ∧
  state (perform_step st s) = with_subscribers (edit (_subscribers s) st) s ∧
  invocations (events (perform_step st s)) = [].
Proof.
  destruct st as [line|observer|a]; cbn [perform_step edit].
  - split_and!; [done | | done]. by destruct s.
  - split_and!; [apply attach_result | apply attach_subscribers | apply attach_invocations].
  - unfold detach_addr, bind, get. cbn.
    destruct (find _ (_subscribers s)) as [x|].
    + pose proof (detach_result x s) as H1. pose proof (detach_subscribers x s) as H2.
      pose proof (detach_invocations x s) as H3.
      destruct (detach x s) as [[res s'] ev]. unfold result, state, events in *. cbn in *.
      by subst.
    + split_and!; [done | | done]. by destruct s.
Qed.

Lemma react_cons st sts : react (st :: sts) = bind (perform_step st) (λ _, react sts).
Proof. by destruct st. Qed.

Lemma react_spec sts s :
  result (react sts s) = inl tt ∧
  state (react sts s) = with_subscribers (edits sts (_subscribers s)) s ∧
  invocations (events (react sts s)) = [].
Proof.
  revert s. induction sts as [|st sts IH]; intros s.
  - split_and!; [done | | done]. by destruct s.
  - destruct (perform_step_spec st s) as (H1 & H2 & H3).
    rewrite react_cons, (bind_returns _ _ s tt) by done.
    destruct (IH (state (perform_step st s))) as (IH1 & IH2 & IH3).
    rewrite result_of, state_of, events_of.
    split_and!; [done | | by rewrite invocations_app, H3, IH3].
    by rewrite IH2, H2.
Qed.

Lemma react_says lines s : react (Say <$> lines) s = (inl tt, s, Printed <$> lines).
Proof.
  induction lines as [|line lines IH]; [done |].
  rewrite fmap_cons, react_cons. unfold bind. cbn. by rewrite IH.
Qed.

Lemma invoke_spec x v c s :
  result (invoke x v c s) =
    match raised (call_update (obj x) v c) with None => inl tt | Some e => inr e end ∧
  state (invoke x v c s) =
    with_subscribers (edits (steps (call_update (obj x) v c)) (_subscribers s)) s ∧
  events (invoke x v c s) =
    Invoked (addr x) v c :: events (react (steps (call_update (obj x) v c)) s).
Proof.
  destruct (react_spec (steps (call_update (obj x) v c)) s) as (H1 & H2 & _).
  assert (invoke x v c s =
          (match raised (call_update (obj x) v c) with None => inl tt | Some e => inr e end,
           state (react (steps (call_update (obj x) v c)) s),
           Invoked (addr x) v c :: events (react (steps (call_update (obj x) v c)) s)))
    as ->.
  { unfold invoke, bind, called.
    destruct (react _ s) as [[res s'] ev]. unfold result, state, events in *. cbn in *.
    subst res. destruct (raised _); cbn; by rewrite app_nil_r. }
  by rewrite result_of, state_of, events_of, H2.
Qed.

Lemma invoke_inert x v c s :
  inert v c x →
  invoke x v c s =
    (match raised (call_update (obj x) v c) with None => inl tt | Some e => inr e end, s,
     Invoked (addr x) v c :: (Printed <$> printed (call_update (obj x) v c))).
Proof.
  intros Hx. destruct (invoke_spec x v c s) as (H1 & H2 & H3).
  unfold inert in Hx. rewrite Hx in H2, H3.
  pose proof (react_spec (Say <$> printed (call_update (obj x) v c)) s) as (_ & H & _).
  rewrite <- H in H2. rewrite react_says in H2, H3. rewrite state_of in H2.
  rewrite events_of in H3.
  destruct (invoke x v c s) as [[res s'] ev].
  rewrite result_of in H1. rewrite state_of in H2. rewrite events_of in H3. by subst.
Qed.

Lemma update_subscriber_eq x s :
  update_subscriber x s = invoke x (_latest_video s) (_channel_name s) s.
Proof.
  unfold update_subscriber. unfold bind at 1. unfold get at 1. cbn beta iota.
  unfold bind at 1. unfold get at 1. cbn beta iota.
  by destruct (invoke x (_latest_video s) (_channel_name s) s) as [[res s'] ev].
Qed.

(** ** The subscriber list under the steps of a callback *)

Lemma sublist_addrs l1 l2 : l1 `sublist_of` l2 → addrs l1 `sublist_of` addrs l2.
Proof.
  induction 1 as [|x l1 l2 _ IH|x l1 l2 _ IH]; [done | |].
  - by apply sublist_skip.
  - by apply sublist_cons.
Qed.

Lemma edit_NoDup l st : NoDup (addrs l) → NoDup (addrs (edit l st)).
Proof.
  intros Hl. destruct st as [line|observer|a]; cbn [edit]; [done | |].
  - destruct (list_contains observer l) eqn:E; [done |].
    unfold addrs. rewrite fmap_app. apply NoDup_app. split_and!; [done | | apply NoDup_singleton].
    intros b Hb ->%list_elem_of_singleton. by apply list_contains_false in E.
  - destruct (find _ l) as [x|]; [| done].
    eapply sublist_NoDup; [exact Hl |]. apply sublist_addrs, remove_first_sublist.
Qed.

Lemma edits_NoDup sts l : NoDup (addrs l) → NoDup (addrs (edits sts l)).
Proof.
  revert l. induction sts as [|st sts IH]; intros l Hl; [done |].
  cbn. by apply IH, edit_NoDup.
Qed.

(** ** The loop of [notify] ends by itself *)

Lemma weight_eq v c o :
  weight v c o = S (attach_weight v c (steps (call_update o v c))).
Proof.
  destruct o as [update_of str_of]. cbn [weight call_update].
  destruct (update_of v c) as [sts e]. cbn [steps]. f_equal.
  induction sts as [|[line|[a o']|a] sts IH]; cbn [attach_weight obj]; [done | | |];
    by rewrite <- IH.
Qed.

Lemma sum_drop_S (f : ref → nat) k l :
  (sum_list_with f (drop (S k) l) ≤ sum_list_with f (drop k l))%nat.
Proof.
  revert k. induction l as [|y l IH]; intros k; [by destruct k |].
  destruct k as [|k]; simpl; rewrite ?drop_0; [lia |]. apply IH.
Qed.

Lemma sum_drop_remove_first (f : ref → nat) k x l :
  (sum_list_with f (drop k (remove_first x l)) ≤ sum_list_with f (drop k l))%nat.
Proof.
  revert k. induction l as [|y l IH]; intros k; [done |].
  rewrite remove_first_cons. destruct (py_eq y x).
  - destruct k as [|k]; simpl; rewrite ?drop_0; [lia | apply sum_drop_S].
  - destruct k as [|k]; simpl; rewrite ?drop_0; [| apply IH].
    specialize (IH 0). rewrite !drop_0 in IH. lia.
Qed.

Lemma sum_drop_snoc (f : ref → nat) k l x :
  (sum_list_with f (drop k (l ++ [x])) ≤ sum_list_with f (drop k l) + f x)%nat.
Proof.
  rewrite drop_app, sum_list_with_app.
  destruct (k - length l) as [|n]; simpl; rewrite ?drop_0, ?drop_nil; simpl; lia.
Qed.

Lemma edit_weight v c k l st :
  (sum_list_with (λ r, weight v c (obj r)) (drop k (edit l st)) ≤
   sum_list_with (λ r, weight v c (obj r)) (drop k l) + attach_weight v c [st])%nat.
Proof.
  destruct st as [line|observer|a]; cbn [edit attach_weight].
  - lia.
  - destruct (list_contains observer l); [lia |].
    pose proof (sum_drop_snoc (λ r, weight v c (obj r)) k l observer). simpl in *. lia.
  - destruct (find _ l) as [x|]; [| lia].
    pose proof (sum_drop_remove_first (λ r, weight v c (obj r)) k x l). lia.
Qed.

Lemma attach_weight_cons v c st sts :
  attach_weight v c (st :: sts) = (attach_weight v c [st] + attach_weight v c sts)%nat.
Proof. destruct st; cbn [attach_weight]; lia. Qed.

Lemma edits_weight v c k sts l :
  (sum_list_with (λ r, weight v c (obj r)) (drop k (edits sts l)) ≤
   sum_list_with (λ r, weight v c (obj r)) (drop k l) + attach_weight v c sts)%nat.
Proof.
  revert l. induction sts as [|st sts IH]; intros l; [simpl; lia |].
  rewrite attach_weight_cons. cbn [edits foldl].
  pose proof (IH (edit l st)) as H1. pose proof (edit_weight v c k l st) as H2.
  unfold edits in H1. lia.
Qed.

(** A round uses up at least one of the rounds still needed. *)
Lemma budget_step i x s :
  _subscribers s !! i = Some x →
  (budget (S i) (state (update_subscriber x s)) < budget i s)%nat.
Proof.
  intros Hx. rewrite update_subscriber_eq.
  destruct (invoke_spec x (_latest_video s) (_channel_name s) s) as (_ & -> & _).
  unfold budget. cbn [with_subscribers _subscribers _latest_video _channel_name].
  rewrite (drop_S _ _ _ Hx). simpl sum_list_with. rewrite (weight_eq _ _ (obj x)).
  pose proof (edits_weight (_latest_video s) (_channel_name s) (S i)
                (steps (call_update (obj x) (_latest_video s) (_channel_name s)))
                (_subscribers s)). lia.
Qed.

Lemma budget_0 i s : budget i s = 0 → _subscribers s !! i = None.
Proof.
  unfold budget. destruct (_subscribers s !! i) as [x|] eqn:Hx; [| done].
  rewrite (drop_S _ _ _ Hx). simpl sum_list_with. rewrite weight_eq. lia.
Qed.

(** With the rounds still needed, or more, the loop does the same. *)
Lemma for_each_subscriber_rounds n1 n2 i s :
  (budget i s ≤ n1)%nat → (budget i s ≤ n2)%nat →
  for_each_subscriber n1 i update_subscriber s =
  for_each_subscriber n2 i update_subscriber s.
Proof.
  revert n2 i s. induction n1 as [|n1 IH]; intros n2 i s H1 H2.
  - assert (_subscribers s !! i = None) as Hi by (apply budget_0; lia).
    destruct n2 as [|n2]; cbn [for_each_subscriber]; [done |]. by rewrite Hi.
  - destruct (_subscribers s !! i) as [x|] eqn:Hi.
    + pose proof (budget_step i x s Hi) as Hstep.
      destruct n2 as [|n2]; [lia |]. cbn [for_each_subscriber]. rewrite Hi.
      unfold bind. destruct (update_subscriber x s) as [[[u|e] s'] ev]; [| done].
      rewrite state_of in Hstep. by rewrite (IH n2) by lia.
    + destruct n2 as [|n2]; cbn [for_each_subscriber]; by rewrite Hi.
Qed.

Lemma fan_out_from_eq i s :
  fan_out_from i s =
    match _subscribers s !! i with
    | None => (inl tt, s, [])
    | Some x => bind (update_subscriber x) (λ _, fan_out_from (S i)) s
    end.
Proof.
  unfold fan_out_from at 1. destruct (_subscribers s !! i) as [x|] eqn:Hi.
  - pose proof (budget_step i x s Hi) as Hstep.
    destruct (budget i s) as [|n] eqn:Hn; [lia |]. cbn [for_each_subscriber]. rewrite Hi.
    unfold bind. destruct (update_subscriber x s) as [[[u|e] s'] ev]; [| done].
    rewrite state_of in Hstep. unfold fan_out_from.
    by rewrite (for_each_subscriber_rounds n (budget (S i) s')) by lia.
  - destruct (budget i s); cbn [for_each_subscriber]; [done |]. by rewrite Hi.
Qed.

Lemma notify_eq s :
  notify s =
    let '(res, s', ev) := fan_out_from 0 s in
    (res, s', Printed ("
🔔 Notifying " +:+ pretty (length (_subscribers s)) +:+ " subscribers...") :: ev).
Proof.
  unfold notify. unfold bind at 1. unfold get at 1. cbn beta iota.
  unfold bind at 1. unfold print at 1. cbn beta iota.
  unfold bind at 1. unfold get at 1. cbn beta iota.
  fold update_subscriber. fold (fan_out_from 0 s).
  by destruct (fan_out_from 0 s) as [[res s'] ev].
Qed.

(** ** What every fan-out keeps, whomever the callbacks subscribe or unsubscribe *)

Lemma for_each_subscriber_frame n i s :
  _latest_video (state (for_each_subscriber n i update_subscriber s)) = _latest_video s ∧
  _channel_name (state (for_each_subscriber n i update_subscriber s)) = _channel_name s ∧
  (NoDup (addrs (_subscribers s)) →
   NoDup (addrs (_subscribers (state (for_each_subscriber n i update_subscriber s))))).
Proof.
  revert i s. induction n as [|n IH]; intros i s; [done |].
  cbn [for_each_subscriber]. destruct (_subscribers s !! i) as [x|]; [| done].
  unfold bind. rewrite update_subscriber_eq.
  destruct (invoke_spec x (_latest_video s) (_channel_name s) s) as (_ & Hst & _).
  destruct (invoke x _ _ s) as [[[u|e] s1] ev1]; rewrite state_of in Hst; subst s1.
  - specialize (IH (S i) (with_subscribers
        (edits (steps (call_update (obj x) (_latest_video s) (_channel_name s)))
               (_subscribers s)) s)).
    destruct (for_each_subscriber n (S i) update_subscriber _) as [[res s2] ev2].
    rewrite !state_of in *. destruct IH as (H1 & H2 & H3).
    split_and!; [done | done |]. intros Hnd. by apply H3, edits_NoDup.
  - rewrite state_of. split_and!; [done | done |]. intros Hnd. by apply edits_NoDup.
Qed.

Lemma notify_frame s :
  _latest_video (state (notify s)) = _latest_video s ∧
  _channel_name (state (notify s)) = _channel_name s ∧
  (NoDup (addrs (_subscribers s)) → NoDup (addrs (_subscribers (state (notify s))))).
Proof.
  rewrite notify_eq. unfold fan_out_from.
  pose proof (for_each_subscriber_frame (budget 0 s) 0 s) as H.
  by destruct (for_each_subscriber _ 0 update_subscriber s) as [[res s'] ev].
Qed.

Lemma upload_video_notify video_title s :
  upload_video video_title s =
    let '(res, s', ev) := notify (with_latest_video video_title s) in
    (res, s', Printed ("
📹 " +:+ _channel_name s +:+ " uploaded: '" +:+ video_title +:+ "'") :: ev).
Proof.
  unfold upload_video. unfold bind at 1. unfold get at 1. cbn beta iota.
  unfold bind at 1. unfold print at 1. cbn beta iota.
  unfold bind at 1. unfold set_latest_video at 1. cbn beta iota.
  by destruct (notify _) as [[res s'] ev].
Qed.

Lemma upload_video_invocations video_title s :
  invocations (events (upload_video video_title s)) =
  invocations (events (notify (with_latest_video video_title s))).
Proof. rewrite upload_video_notify. by destruct (notify _) as [[res s'] ev]. Qed.

Lemma upload_video_result video_title s :
  result (upload_video video_title s) = result (notify (with_latest_video video_title s)).
Proof. rewrite upload_video_notify. by destruct (notify _) as [[res s'] ev]. Qed.

Lemma upload_video_state_notify video_title s :
  state (upload_video video_title s) = state (notify (with_latest_video video_title s)).
Proof. rewrite upload_video_notify. by destruct (notify _) as [[res s'] ev]. Qed.

Lemma upload_video_frame video_title s :
  _latest_video (state (upload_video video_title s)) = video_title ∧
  _channel_name (state (upload_video video_title s)) = _channel_name s ∧
  (NoDup (addrs (_subscribers s)) →
   NoDup (addrs (_subscribers (state (upload_video video_title s))))).
Proof.
  rewrite upload_video_state_notify.
  by destruct (notify_frame (with_latest_video video_title s)) as (-> & -> & H).
Qed.

(** ** Callbacks that leave the subscriptions alone *)

Lemma visit_cons r l s :
  inert (_latest_video s) (_channel_name s) r →
  visit (r :: l) s =
    let o := call_update (obj r) (_latest_video s) (_channel_name s) in
    let called := Invoked (addr r) (_latest_video s) (_channel_name s)
                    :: (Printed <$> printed o) in
    match raised o with
    | None => let '(res, s', ev) := visit l s in (res, s', called ++ ev)
    | Some e => (inr e, s, called)
    end.
Proof.
  intros Hr. change (visit (r :: l) s) with (bind (update_subscriber r) (λ _, visit l) s).
  unfold bind. rewrite update_subscriber_eq, invoke_inert by done. cbn zeta.
  by destruct (raised _).
Qed.

Lemma visit_state l s :
  Forall (inert (_latest_video s) (_channel_name s)) l → state (visit l s) = s.
Proof.
  induction 1 as [|r l Hr _ IH]; [done |].
  rewrite visit_cons by done. cbn zeta. destruct (raised _); [done |].
  by destruct (visit l s) as [[res s'] ev].
Qed.

(** While the callbacks return, the loop goes on. *)
Lemma visit_returns l s :
  Forall (inert (_latest_video s) (_channel_name s)) l →
  Forall (returns (_latest_video s) (_channel_name s)) l →
  result (visit l s) = inl tt ∧
  invocations (events (visit l s)) = delivery s <$> l.
Proof.
  induction 1 as [|r l Hi _ IH]; [by intros _ |]. intros [Hr Hl]%Forall_cons.
  destruct (IH Hl) as [IH1 IH2].
  rewrite visit_cons by done. cbn zeta. rewrite Hr.
  destruct (visit l s) as [[res s'] ev]. unfold result, events in *. cbn in *.
  split; [done |]. by rewrite invocations_app, invocations_Printed, IH2.
Qed.

(** The first callback that raises ends it. *)
Lemma visit_raises l1 r l2 e s :
  Forall (inert (_latest_video s) (_channel_name s)) (l1 ++ [r]) →
  Forall (returns (_latest_video s) (_channel_name s)) l1 →
  raised (call_update (obj r) (_latest_video s) (_channel_name s)) = Some e →
  result (visit (l1 ++ r :: l2) s) = inr e ∧
  state (visit (l1 ++ r :: l2) s) = s ∧
  invocations (events (visit (l1 ++ r :: l2) s)) = delivery s <$> (l1 ++ [r]).
Proof.
  intros Hi Hl1 Hr. induction Hl1 as [|r1 l1 Hr1 _ IH].
  - cbn [app] in Hi. rewrite Forall_singleton in Hi.
    cbn [app]. rewrite visit_cons by done. cbn zeta. rewrite Hr.
    unfold result, state, events. cbn. by rewrite invocations_Printed.
  - cbn [app] in Hi. apply Forall_cons in Hi as [Hi1 Hi].
    destruct (IH Hi) as (IH1 & IH2 & IH3).
    cbn [app]. rewrite visit_cons by done. cbn zeta. rewrite Hr1.
    destruct (visit (l1 ++ r :: l2) s) as [[res s'] ev].
    unfold result, state, events in *. cbn in *.
    split_and!; [done | done |]. by rewrite invocations_app, invocations_Printed, IH3.
Qed.

(** An exception out of the loop is one a subscriber's callback raised. *)
Lemma visit_error l s e :
  Forall (inert (_latest_video s) (_channel_name s)) l →
  result (visit l s) = inr e →
  ∃ r, r ∈ l ∧ raised (call_update (obj r) (_latest_video s) (_channel_name s)) = Some e.
Proof.
  induction 1 as [|r l Hi _ IH]; [done |].
  rewrite visit_cons by done. cbn zeta.
  destruct (raised (call_update (obj r) _ _)) as [e'|] eqn:Hr.
  - intros [= ->]. exists r. split; [constructor | done].
  - destruct (visit l s) as [[res s'] ev]. unfold result in *. cbn in *.
    intros (r' & Hin & Hr')%IH. exists r'. split; [by constructor | done].
Qed.

(** The loop returns exactly when every callback does. *)
Lemma visit_result_inl l s :
  Forall (inert (_latest_video s) (_channel_name s)) l →
  result (visit l s) = inl tt ↔ Forall (returns (_latest_video s) (_channel_name s)) l.
Proof.
  intros Hi. split; [| by apply visit_returns].
  induction Hi as [|r l Hi _ IH]; [by constructor |].
  rewrite visit_cons by done. cbn zeta.
  destruct (raised (call_update (obj r) _ _)) as [e'|] eqn:Hr; [done |].
  destruct (visit l s) as [[res s'] ev]. unfold result in *. cbn in *.
  intros Hres. constructor; [done | by apply IH].
Qed.

Lemma visit_prefix l s :
  Forall (inert (_latest_video s) (_channel_name s)) l →
  invocations (events (visit l s)) `prefix_of` delivery s <$> l.
Proof.
  induction 1 as [|r l Hi _ IH]; [done |].
  rewrite visit_cons by done. cbn zeta. destruct (raised _).
  - unfold events. cbn. rewrite invocations_Printed.
    apply (prefix_cons _ []), prefix_nil.
  - destruct (visit l s) as [[res s'] ev]. unfold events in *. cbn in *.
    rewrite invocations_app, invocations_Printed. by apply prefix_cons.
Qed.

Lemma visit_transcript l s :
  Forall (inert (_latest_video s) (_channel_name s)) l →
  Forall (returns (_latest_video s) (_channel_name s)) l →
  events (visit l s) = concat (transcript_of s <$> l).
Proof.
  induction 1 as [|r l Hi _ IH]; [by intros _ |]. intros [Hr Hl]%Forall_cons.
  rewrite visit_cons by done. cbn zeta. rewrite Hr.
  specialize (IH Hl). destruct (visit l s) as [[res s'] ev]. unfold events in *. cbn in *.
  by rewrite IH.
Qed.

(** When no callback edits the subscriber list, the loop of [notify] is a
    walk along the list as it was at the start. *)
Lemma fan_out_from_inert l i s :
  drop i (_subscribers s) = l →
  Forall (inert (_latest_video s) (_channel_name s)) l →
  fan_out_from i s = visit l s.
Proof.
  intros Hl Hi. revert i Hl. induction Hi as [|x l Hx _ IH]; intros i Hl.
  - rewrite fan_out_from_eq.
    assert (_subscribers s !! i = None) as ->; [| done].
    apply lookup_ge_None. by apply drop_nil_inv.
  - assert (_subscribers s !! i = Some x) as Hlook.
    { apply (f_equal (.!! 0)) in Hl. by rewrite lookup_drop, Nat.add_0_r in Hl. }
    assert (drop (S i) (_subscribers s) = l) as Hdrop.
    { rewrite (drop_S _ _ _ Hlook) in Hl. by injection Hl. }
    rewrite fan_out_from_eq, Hlook.
    change (visit (x :: l) s) with (bind (update_subscriber x) (λ _, visit l) s).
    unfold bind. rewrite update_subscriber_eq, invoke_inert by done.
    destruct (raised _); [done |]. by rewrite (IH _ Hdrop).
Qed.

Lemma notify_visit s :
  Forall (inert (_latest_video s) (_channel_name s)) (_subscribers s) →
  notify s =
    let '(res, s', ev) := visit (_subscribers s) s in
    (res, s', Printed ("
🔔 Notifying " +:+ pretty (length (_subscribers s)) +:+ " subscribers...") :: ev).
Proof.
  intros Hi. rewrite notify_eq. by rewrite (fan_out_from_inert (_subscribers s) 0 s).
Qed.

Lemma notify_state s :
  Forall (inert (_latest_video s) (_channel_name s)) (_subscribers s) →
  state (notify s) = s.
Proof.
  intros Hi. rewrite notify_visit by done. pose proof (visit_state _ s Hi) as H.
  by destruct (visit _ s) as [[res s'] ev].
Qed.

Lemma notify_invocations s :
  Forall (inert (_latest_video s) (_channel_name s)) (_subscribers s) →
  invocations (events (notify s)) = invocations (events (visit (_subscribers s) s)).
Proof.
  intros Hi. rewrite notify_visit by done. by destruct (visit _ s) as [[res s'] ev].
Qed.

Lemma notify_result s :
  Forall (inert (_latest_video s) (_channel_name s)) (_subscribers s) →
  result (notify s) = result (visit (_subscribers s) s).
Proof.
  intros Hi. rewrite notify_visit by done. by destruct (visit _ s) as [[res s'] ev].
Qed.

Lemma notify_returns s :
  Forall (inert (_latest_video s) (_channel_name s)) (_subscribers s) →
  Forall (returns (_latest_video s) (_channel_name s)) (_subscribers s) →
  result (notify s) = inl tt ∧
  invocations (events (notify s)) = delivery s <$> _subscribers s.
Proof.
  intros Hi Hr. rewrite notify_result, notify_invocations by done. by apply visit_returns.
Qed.

Lemma notify_prefix s :
  Forall (inert (_latest_video s) (_channel_name s)) (_subscribers s) →
  invocations (events (notify s)) `prefix_of` delivery s <$> _subscribers s.
Proof. intros Hi. rewrite notify_invocations by done. by apply visit_prefix. Qed.

Lemma upload_video_state video_title s :
  Forall (inert video_title (_channel_name s)) (_subscribers s) →
  state (upload_video video_title s) = with_latest_video video_title s.
Proof.
  intros Hi. rewrite upload_video_state_notify.
  by apply (notify_state (with_latest_video video_title s)).
Qed.

(** ** Who receives a fan-out *)

Lemma prefix_fmap {A B} (f : A → B) (l1 l2 : list A) :
  l1 `prefix_of` l2 → f <$> l1 `prefix_of` f <$> l2.
Proof. intros [k ->]. exists (f <$> k). apply fmap_app. Qed.

Lemma delivery_addrs s l : (delivery s <$> l).*1.*1 = addrs l.
Proof. unfold addrs. by rewrite <- !list_fmap_compose. Qed.

Lemma received_of_delivery_absent a s l :
  a ∉ addrs l → received_of a (delivery s <$> l) = [].
Proof.
  unfold received_of, addrs. induction l as [|r l IH]; [done |].
  rewrite !fmap_cons, not_elem_of_cons. intros [Hr Hl].
  rewrite filter_cons_False by (cbn; congruence). by apply IH.
Qed.

Lemma received_of_delivery_present a s l :
  NoDup (addrs l) → a ∈ addrs l →
  received_of a (delivery s <$> l) = [(_latest_video s, _channel_name s)].
Proof.
  induction l as [|r l IH]; unfold received_of, addrs in *.
  - by intros _ ?%elem_of_nil.
  - rewrite !fmap_cons, NoDup_cons, elem_of_cons. intros [Hr Hl] [->|Ha].
    + rewrite filter_cons_True by done. rewrite fmap_cons. f_equal.
      by apply (received_of_delivery_absent _ s) in Hr.
    + rewrite filter_cons_False; [by apply IH |].
      cbn. intros <-. by apply Hr.
Qed.

Lemma received_of_prefix_absent a s l calls :
  calls `prefix_of` delivery s <$> l → a ∉ addrs l → received_of a calls = [].
Proof.
  intros [rest Hrest] Ha. apply (received_of_delivery_absent _ s) in Ha.
  unfold received_of in *. rewrite Hrest, filter_app, fmap_app in Ha.
  by apply app_eq_nil in Ha as [? _].
Qed.

Lemma received_app a ev1 ev2 :
  received a (ev1 ++ ev2) = received a ev1 ++ received a ev2.
Proof.
  unfold received, received_of. by rewrite invocations_app, filter_app, fmap_app.
Qed.

Lemma sublist_Forall {A} (P : A → Prop) (l1 l2 : list A) :
  l1 `sublist_of` l2 → Forall P l2 → Forall P l1.
Proof.
  intros Hsub. rewrite !Forall_forall. intros H x Hx. apply H.
  by eapply elem_of_sublist.
Qed.

Lemma edits_sublist sts l :
  Forall (λ st, ∀ observer, st ≠ DoAttach observer) sts → edits sts l `sublist_of` l.
Proof.
  intros Hsts. revert l. induction Hsts as [|st sts Hst _ IH]; intros l; [done |].
  cbn [edits foldl]. etrans; [apply IH |].
  destruct st as [line|observer|a]; cbn [edit]; [done | by destruct (Hst observer) |].
  destruct (find _ l); [apply remove_first_sublist | done].
Qed.

(** When no callback subscribes anyone, a fan-out calls subscribers only. *)
Lemma for_each_subscriber_outsider n i s a :
  Forall (no_attach (_latest_video s) (_channel_name s)) (_subscribers s) →
  a ∉ addrs (_subscribers s) →
  received a (events (for_each_subscriber n i update_subscriber s)) = [].
Proof.
  revert i s. induction n as [|n IH]; intros i s Hna Ha; [done |].
  cbn [for_each_subscriber]. destruct (_subscribers s !! i) as [x|] eqn:Hx; [| done].
  assert (x ∈ _subscribers s) as Hin by by eapply list_elem_of_lookup_2.
  assert (addr x ≠ a) as Hxa.
  { intros <-. apply Ha. by apply list_elem_of_fmap_2. }
  pose proof (proj1 (Forall_forall _ _) Hna x Hin) as Hsteps.
  pose proof (edits_sublist _ (_subscribers s) Hsteps) as Hsub.
  rewrite bind_events, received_app, update_subscriber_eq.
  destruct (invoke_spec x (_latest_video s) (_channel_name s) s) as (_ & Hst & Hev).
  destruct (react_spec (steps (call_update (obj x) (_latest_video s) (_channel_name s))) s)
    as (_ & _ & Hnone).
  assert (received a (events (invoke x (_latest_video s) (_channel_name s) s)) = []) as ->.
  { rewrite Hev. unfold received, received_of. cbn [invocations]. rewrite Hnone.
    by rewrite filter_cons_False by done. }
  destruct (result _); [| done]. rewrite Hst. apply IH.
  - by apply (sublist_Forall _ _ _ Hsub).
  - intros Hin'. apply Ha. eapply elem_of_sublist; [exact Hin' |]. by apply sublist_addrs.
Qed.

Lemma notify_outsider s a :
  Forall (no_attach (_latest_video s) (_channel_name s)) (_subscribers s) →
  a ∉ addrs (_subscribers s) →
  received a (events (notify s)) = [].
Proof.
  intros Hna Ha. rewrite notify_eq. unfold fan_out_from.
  pose proof (for_each_subscriber_outsider (budget 0 s) 0 s a Hna Ha) as H.
  by destruct (for_each_subscriber _ 0 update_subscriber s) as [[res s'] ev].
Qed.

Lemma upload_video_outsider X s a :
  Forall (no_attach X (_channel_name s)) (_subscribers s) →
  a ∉ addrs (_subscribers s) →
  received a (events (upload_video X s)) = [].
Proof.
  intros Hna Ha. pose proof (notify_outsider (with_latest_video X s) a Hna Ha) as H.
  unfold received in *. by rewrite upload_video_invocations.
Qed.

Lemma inert_no_attach v c r : inert v c r → no_attach v c r.
Proof.
  unfold inert, no_attach. intros ->. apply Forall_fmap, Forall_true. by intros line observer.
Qed.

(** ** The subscriber list holds no observer twice *)

Lemma attach_NoDup observer s :
  NoDup (addrs (_subscribers s)) → NoDup (addrs (_subscribers (state (attach observer s)))).
Proof. intros Hs. rewrite attach_subscribers. by apply (edit_NoDup _ (DoAttach observer)). Qed.

Lemma detach_NoDup observer s :
  NoDup (addrs (_subscribers s)) → NoDup (addrs (_subscribers (state (detach observer s)))).
Proof.
  intros Hs. rewrite detach_subscribers. cbn [with_subscribers _subscribers].
  eapply sublist_NoDup; [exact Hs |]. apply sublist_addrs, remove_first_sublist.
Qed.

Lemma perform_NoDup c s :
  NoDup (addrs (_subscribers s)) → NoDup (addrs (_subscribers (state (perform c s)))).
Proof.
  intros Hs. destruct c as [observer|observer|X| |]; cbn [perform].
  - by apply attach_NoDup.
  - by apply detach_NoDup.
  - by apply upload_video_frame.
  - by apply notify_frame.
  - done.
Qed.

Lemma run_NoDup cs s :
  NoDup (addrs (_subscribers s)) → NoDup (addrs (_subscribers (run cs s))).
Proof.
  revert s. induction cs as [|c cs IH]; intros s Hs; [done |].
  cbn. by apply IH, perform_NoDup.
Qed.

Lemma reachable_NoDup channel_name cs :
  NoDup (addrs (_subscribers (run cs (__init__ channel_name)))).
Proof. apply run_NoDup. cbn. apply NoDup_nil_2. Qed.

(** ** What a call leaves alone *)

Lemma perform_channel_name c s : _channel_name (state (perform c s)) = _channel_name s.
Proof.
  destruct c as [observer|observer|X| |]; cbn [perform].
  - by destruct (attach_state observer s) as [l ->].
  - by destruct (detach_state observer s) as [l ->].
  - by apply upload_video_frame.
  - by apply notify_frame.
  - done.
Qed.

Lemma perform_latest_video c s :
  (∀ X, c ≠ UploadVideo X) → _latest_video (state (perform c s)) = _latest_video s.
Proof.
  intros Hc. destruct c as [observer|observer|X| |]; cbn [perform].
  - by destruct (attach_state observer s) as [l ->].
  - by destruct (detach_state observer s) as [l ->].
  - by destruct (Hc X).
  - by apply notify_frame.
  - done.
Qed.

Lemma run_channel_name cs s : _channel_name (run cs s) = _channel_name s.
Proof.
  revert s. induction cs as [|c cs IH]; intros s; [done |].
  cbn [run]. by rewrite IH, perform_channel_name.
Qed.

Lemma run_latest_video cs s :
  Forall (λ c, ∀ X, c ≠ UploadVideo X) cs → _latest_video (run cs s) = _latest_video s.
Proof.
  intros Hcs. revert s. induction Hcs as [|c cs Hc _ IH]; intros s; [done |].
  cbn [run]. by rewrite IH, perform_latest_video.
Qed.

(** ** The subscribers of [observers.py] *)

Lemma repo_class_update o video_title channel_name :
  repo_class o →
  raised (call_update o video_title channel_name) = None ∧
  length (printed (call_update o video_title channel_name)) = 2 ∧
  steps (call_update o video_title channel_name) =
    Say <$> printed (call_update o video_title channel_name).
Proof. by intros []. Qed.

Lemma repo_class_returns video_title channel_name l :
  Forall (λ r, repo_class (obj r)) l → Forall (returns video_title channel_name) l.
Proof.
  intros Hl. eapply Forall_impl; [exact Hl |].
  intros r Hr. by apply repo_class_update.
Qed.

Lemma repo_class_inert video_title channel_name l :
  Forall (λ r, repo_class (obj r)) l → Forall (inert video_title channel_name) l.
Proof.
  intros Hl. eapply Forall_impl; [exact Hl |].
  intros r Hr. by apply repo_class_update.
Qed.

Lemma tech_channel_repo_class : Forall (λ r, repo_class (obj r)) (_subscribers tech_channel).
Proof. repeat constructor. Qed.

Lemma tech_channel_returns video_title :
  Forall (returns video_title "TechMaster") (_subscribers tech_channel).
Proof. apply repo_class_returns, tech_channel_repo_class. Qed.

Lemma tech_channel_inert video_title :
  Forall (inert video_title "TechMaster") (_subscribers tech_channel).
Proof. apply repo_class_inert, tech_channel_repo_class. Qed.

Lemma tech_channel_NoDup : NoDup (addrs (_subscribers tech_channel)).
Proof. apply (reachable_NoDup "TechMaster" [_; _; _]). Qed.

(** Observers that never call the channel. *)

Lemma peaceful_inert v c l :
  Forall (λ r, peaceful (obj r)) l → Forall (inert v c) l.
Proof. intros Hl. eapply Forall_impl; [exact Hl |]. intros r Hr. apply Hr. Qed.

Lemma repo_class_peaceful o : repo_class o → peaceful o.
Proof. intros Ho v c. by apply repo_class_update. Qed.

Lemma perform_peaceful c s :
  (∀ observer, c = Attach observer → peaceful (obj observer)) →
  Forall (λ r, peaceful (obj r)) (_subscribers s) →
  Forall (λ r, peaceful (obj r)) (_subscribers (state (perform c s))).
Proof.
  intros Hc Hs. destruct c as [observer|observer|X| |]; cbn [perform].
  - rewrite attach_subscribers. cbn [with_subscribers _subscribers].
    destruct (list_contains observer (_subscribers s)); [done |].
    apply Forall_app. split; [done |]. apply Forall_singleton. by apply Hc.
  - rewrite detach_subscribers. cbn [with_subscribers _subscribers].
    eapply sublist_Forall; [apply remove_first_sublist | done].
  - rewrite upload_video_state; [done |]. by apply peaceful_inert.
  - rewrite notify_state; [done |]. by apply peaceful_inert.
  - done.
Qed.

Lemma run_peaceful cs s :
  Forall (λ c, ∀ observer, c = Attach observer → peaceful (obj observer)) cs →
  Forall (λ r, peaceful (obj r)) (_subscribers s) →
  Forall (λ r, peaceful (obj r)) (_subscribers (run cs s)).
Proof.
  intros Hcs. revert s. induction Hcs as [|c cs Hc _ IH]; intros s Hs; [done |].
  cbn [run]. by apply IH, perform_peaceful.
Qed.

(** Membership of a given address in a given list of addresses. *)
Ltac solve_addr_in :=
  unfold not; rewrite ?elem_of_cons, elem_of_nil; lia.

(** ** Delivery of a published video *)

(** C1, as the specification has it, fails.  Every callback subscribed to
    [leaving_channel] returns, yet an upload calls its first and its third
    subscriber only: the first unsubscribes itself when it is called, and the
    loop of [notify], which goes by index along the list as it then is,
    passes over the second.  And on [recruiting_channel] an upload calls an
    observer that was not subscribed when it started: the one that the only
    subscriber brings in. *)
Lemma upload_video_misses_a_subscriber :
  addrs (_subscribers leaving_channel) = [20; 1; 2] ∧
  Forall (returns "Clean Code Principles in Python" "TechMaster")
         (_subscribers leaving_channel) ∧
  result (upload_video "Clean Code Principles in Python" leaving_channel) = inl tt ∧
  (invocations (events (upload_video "Clean Code Principles in Python" leaving_channel))).*1.*1
    = [20; 2] ∧
  received 1 (events (upload_video "Clean Code Principles in Python" leaving_channel)) = [] ∧
  addrs (_subscribers recruiting_channel) = [30] ∧
  received 3 (events (upload_video "Clean Code Principles in Python" recruiting_channel)) =
    [("Clean Code Principles in Python", "TechMaster")].
Proof. split_and!; try reflexivity. repeat constructor. Qed.

(** C1, amended.  [upload_video X] stores [X] in [_latest_video] and then
    runs [notify] on the channel so updated: its result, the channel it
    leaves and its events are those of that [notify], after the upload line.
    When no subscribed callback subscribes anyone while it runs, no observer
    outside the subscriber list is called.  When every subscribed callback
    returns without calling the channel, on a subscriber list without
    repetition, the upload returns, changes [_latest_video] only, and every
    subscriber is called exactly once, with [X] and the channel's name. *)
Theorem upload_video_delivers (X : string) (s : YouTubeChannel) :
  result (upload_video X s) = result (notify (with_latest_video X s)) ∧
  state (upload_video X s) = state (notify (with_latest_video X s)) ∧
  events (upload_video X s) =
    Printed ("
📹 " +:+ _channel_name s +:+ " uploaded: '" +:+ X +:+ "'")
    :: events (notify (with_latest_video X s)) ∧
  (Forall (no_attach X (_channel_name s)) (_subscribers s) →
   ∀ a, a ∉ addrs (_subscribers s) → received a (events (upload_video X s)) = []) ∧
  (NoDup (addrs (_subscribers s)) →
   Forall (inert X (_channel_name s)) (_subscribers s) →
   Forall (returns X (_channel_name s)) (_subscribers s) →
   result (upload_video X s) = inl tt ∧
   state (upload_video X s) = with_latest_video X s ∧
   ∀ a, a ∈ addrs (_subscribers s) →
        received a (events (upload_video X s)) = [(X, _channel_name s)]).
Proof.
  split_and!.
  - apply upload_video_result.
  - apply upload_video_state_notify.
  - rewrite upload_video_notify. by destruct (notify _) as [[res s'] ev].
  - intros Hna a Ha. by apply upload_video_outsider.
  - intros Hs Hi Hret.
    destruct (notify_returns (with_latest_video X s) Hi Hret) as [Hres Hinv].
    split_and!.
    + by rewrite upload_video_result.
    + by apply upload_video_state.
    + intros a Ha. unfold received. rewrite upload_video_invocations, Hinv.
      by apply (received_of_delivery_present a (with_latest_video X s)).
Qed.

Lemma upload_video_delivers_witness :
  NoDup (addrs (_subscribers tech_channel)) ∧
  Forall (inert "Python Design Patterns Tutorial" "TechMaster")
         (_subscribers tech_channel) ∧
  Forall (returns "Python Design Patterns Tutorial" "TechMaster")
         (_subscribers tech_channel) ∧
  result (upload_video "Python Design Patterns Tutorial" tech_channel) = inl tt ∧
  received 1 (events (upload_video "Python Design Patterns Tutorial" tech_channel)) =
    [("Python Design Patterns Tutorial", "TechMaster")] ∧
  received 3 (events (upload_video "Python Design Patterns Tutorial" tech_channel)) = [].
Proof.
  pose proof (upload_video_delivers "Python Design Patterns Tutorial" tech_channel)
    as (_ & _ & _ & Hout & Hin).
  destruct (Hin tech_channel_NoDup
              (tech_channel_inert "Python Design Patterns Tutorial")
              (tech_channel_returns "Python Design Patterns Tutorial"))
    as (Hres & _ & Hone).
  split_and!.
  - exact tech_channel_NoDup.
  - exact (tech_channel_inert _).
  - exact (tech_channel_returns _).
  - exact Hres.
  - apply Hone. change (1 ∈ [0; 1; 2]). solve_addr_in.
  - apply Hout.
    + eapply Forall_impl; [exact (tech_channel_inert "Python Design Patterns Tutorial") |].
      apply inert_no_attach.
    + change (3 ∉ [0; 1; 2]). solve_addr_in.
Defined.

(** ** Subscribing *)

(** C2. After any sequence of calls on a newly made channel, the subscriber
    list holds no observer twice.  Attaching an observer that is already
    subscribed changes nothing: the call returns, the channel is the one it
    found (so are the number of subscribers, the list and what [notify] does)
    and no line is printed; attaching twice is attaching once. *)
Theorem subscribers_distinct (name : string) (cs : list call) (observer : ref) :
  let s := run cs (__init__ name) in
  NoDup (addrs (_subscribers s)) ∧
  (addr observer ∈ addrs (_subscribers s) →
   attach observer s = (inl tt, s, []) ∧
   length (_subscribers (state (attach observer s))) = length (_subscribers s) ∧
   _subscribers (state (attach observer s)) = _subscribers s ∧
   notify (state (attach observer s)) = notify s) ∧
  attach observer (state (attach observer s)) = (inl tt, state (attach observer s), []).
Proof.
  intros s. split_and!.
  - apply reachable_NoDup.
  - intros Hin%list_contains_addrs. by rewrite attach_present.
  - apply attach_present.
    destruct (list_contains observer (_subscribers s)) eqn:E.
    + by rewrite attach_present.
    + rewrite attach_absent by done. apply list_contains_addrs.
      unfold state, addrs. cbn. rewrite fmap_app, elem_of_app. right. constructor.
Qed.

Lemma subscribers_distinct_witness :
  addr subscriber2 ∈ addrs (_subscribers tech_channel) ∧
  attach subscriber2 tech_channel = (inl tt, tech_channel, []) ∧
  length (_subscribers (state (attach subscriber2 tech_channel))) = 3.
Proof.
  pose proof (subscribers_distinct "TechMaster"
                [Attach subscriber1; Attach subscriber2; Attach subscriber3]
                subscriber2) as (_ & H & _).
  assert (addr subscriber2 ∈ addrs (_subscribers tech_channel)) as Hin.
  { change (1 ∈ [0; 1; 2]). solve_addr_in. }
  destruct (H Hin) as (Heq & Hlen & _).
  split_and!; [exact Hin | exact Heq | exact Hlen].
Defined.

(** ** The order of notification *)

Lemma run_attach_new l s :
  NoDup (addrs (_subscribers s ++ l)) →
  run (Attach <$> l) s = with_subscribers (_subscribers s ++ l) s.
Proof.
  revert s. induction l as [|r l IH]; intros s Hs.
  - cbn. by rewrite app_nil_r, with_subscribers_id.
  - rewrite fmap_cons. cbn [run perform].
    assert (list_contains r (_subscribers s) = false) as Hr.
    { apply list_contains_false. unfold addrs in *.
      rewrite fmap_app, fmap_cons in Hs. apply NoDup_app in Hs as (_ & Hs & _).
      intros Hin. apply (Hs _ Hin). constructor. }
    rewrite attach_absent by done. unfold state. cbn [fst snd].
    rewrite IH; cbn [with_subscribers _subscribers]; rewrite <- app_assoc; done.
Qed.

(** C3, as the specification has it, fails.  Every callback subscribed to
    [leaving_channel] returns, and [notify] calls the first and the third
    subscriber, not the three in the order of their subscription; and of two
    uploads in a row, with no call of the client in between, the first calls
    the first and the third and the second calls the second and the third. *)
Lemma notify_passes_over_a_subscriber :
  addrs (_subscribers leaving_channel) = [20; 1; 2] ∧
  Forall (returns "" "TechMaster") (_subscribers leaving_channel) ∧
  result (notify leaving_channel) = inl tt ∧
  (invocations (events (notify leaving_channel))).*1.*1 = [20; 2] ∧
  (invocations (events (upload_video "Python Design Patterns Tutorial"
                          leaving_channel))).*1.*1 = [20; 2] ∧
  (invocations (events (upload_video "Advanced Observer Pattern Explained"
     (state (upload_video "Python Design Patterns Tutorial" leaving_channel))))).*1.*1
    = [1; 2].
Proof. split_and!; try reflexivity. repeat constructor. Qed.

(** C3, amended.  When no subscribed callback calls the channel while it
    runs, [notify] calls the subscribers in the order of the
    subscriber list: the calls it makes are an initial part of that list, up
    to the first callback that raises, and the whole of it when the callbacks
    return.  That order is the order of subscription: a new subscriber is put
    after all the others, and observers subscribed one after the other to a
    new channel are called in that order.  Two uploads in a row, with no call
    in between, then reach the same observers in the same order: what each
    of them calls is an initial part of the same list, and the whole of it
    when the callbacks return. *)
Theorem notify_in_subscription_order (s : YouTubeChannel) :
  (Forall (inert (_latest_video s) (_channel_name s)) (_subscribers s) →
   invocations (events (notify s)) `prefix_of` delivery s <$> _subscribers s) ∧
  (Forall (inert (_latest_video s) (_channel_name s)) (_subscribers s) →
   Forall (returns (_latest_video s) (_channel_name s)) (_subscribers s) →
   invocations (events (notify s)) = delivery s <$> _subscribers s) ∧
  (∀ observer, addr observer ∉ addrs (_subscribers s) →
     _subscribers (state (attach observer s)) = _subscribers s ++ [observer]) ∧
  (∀ name l, NoDup (addrs l) →
     Forall (inert "" name) l →
     Forall (returns "" name) l →
     _subscribers (run (Attach <$> l) (__init__ name)) = l ∧
     (invocations (events (notify (run (Attach <$> l) (__init__ name))))).*1.*1 = addrs l) ∧
  (∀ X Y, Forall (inert X (_channel_name s)) (_subscribers s) →
     Forall (inert Y (_channel_name s)) (_subscribers s) →
     (invocations (events (upload_video X s))).*1.*1 `prefix_of` addrs (_subscribers s) ∧
     (invocations (events (upload_video Y (state (upload_video X s))))).*1.*1
       `prefix_of` addrs (_subscribers s)) ∧
  (∀ X Y, Forall (inert X (_channel_name s)) (_subscribers s) →
     Forall (inert Y (_channel_name s)) (_subscribers s) →
     Forall (returns X (_channel_name s)) (_subscribers s) →
     Forall (returns Y (_channel_name s)) (_subscribers s) →
     (invocations (events (upload_video X s))).*1.*1 = addrs (_subscribers s) ∧
     (invocations (events (upload_video Y (state (upload_video X s))))).*1.*1 =
       addrs (_subscribers s)).
Proof.
  pose proof delivery_addrs as Haddrs.
  split_and!.
  - apply notify_prefix.
  - apply notify_returns.
  - intros observer Hout%list_contains_false. by rewrite attach_absent.
  - intros name l Hl Hi Hret. rewrite run_attach_new by done.
    change (_subscribers (__init__ name) ++ l) with l. split; [done |].
    destruct (notify_returns (with_subscribers l (__init__ name)) Hi Hret) as [_ ->].
    apply Haddrs.
  - intros X Y HX HY. rewrite !upload_video_invocations, upload_video_state by done. split.
    + rewrite <- (Haddrs (with_latest_video X s)).
      by apply prefix_fmap, prefix_fmap, (notify_prefix (with_latest_video X s)).
    + rewrite <- (Haddrs (with_latest_video Y (with_latest_video X s))).
      by apply prefix_fmap, prefix_fmap,
        (notify_prefix (with_latest_video Y (with_latest_video X s))).
  - intros X Y HX HY HrX HrY.
    rewrite !upload_video_invocations, upload_video_state by done.
    destruct (notify_returns (with_latest_video X s) HX HrX) as [_ ->].
    destruct (notify_returns (with_latest_video Y (with_latest_video X s)) HY HrY)
      as [_ ->].
    by rewrite !Haddrs.
Qed.

Lemma notify_in_subscription_order_witness :
  Forall (inert "Clean Code Principles in Python" "TechMaster") (_subscribers tech_channel) ∧
  Forall (returns "Clean Code Principles in Python" "TechMaster") (_subscribers tech_channel) ∧
  Forall (inert "Advanced Observer Pattern Explained" "TechMaster")
         (_subscribers tech_channel) ∧
  Forall (returns "Advanced Observer Pattern Explained" "TechMaster")
         (_subscribers tech_channel) ∧
  (invocations (events (upload_video "Clean Code Principles in Python" tech_channel))).*1.*1
    = [0; 1; 2] ∧
  (invocations (events (upload_video "Advanced Observer Pattern Explained"
     (state (upload_video "Clean Code Principles in Python" tech_channel))))).*1.*1
    = [0; 1; 2].
Proof.
  pose proof (notify_in_subscription_order tech_channel) as (_ & _ & _ & _ & _ & H).
  destruct (H "Clean Code Principles in Python" "Advanced Observer Pattern Explained"
              (tech_channel_inert "Clean Code Principles in Python")
              (tech_channel_inert "Advanced Observer Pattern Explained")
              (tech_channel_returns "Clean Code Principles in Python")
              (tech_channel_returns "Advanced Observer Pattern Explained")) as [H1 H2].
  split_and!; [apply tech_channel_inert | apply tech_channel_returns
              | apply tech_channel_inert | apply tech_channel_returns
              | exact H1 | exact H2].
Defined.

(** ** A callback that fails *)

Lemma notify_raises s l1 r l2 e :
  Forall (inert (_latest_video s) (_channel_name s)) (_subscribers s) →
  _subscribers s = l1 ++ r :: l2 →
  Forall (returns (_latest_video s) (_channel_name s)) l1 →
  raised (call_update (obj r) (_latest_video s) (_channel_name s)) = Some e →
  result (notify s) = inr e ∧
  state (notify s) = s ∧
  invocations (events (notify s)) = delivery s <$> (l1 ++ [r]).
Proof.
  intros Hi Hs Hl1 Hr. rewrite notify_result, notify_invocations, notify_state by done.
  rewrite Hs in Hi |- *. rewrite (assoc_L (++) l1 [r] l2 : l1 ++ r :: l2 = (l1 ++ [r]) ++ l2) in Hi.
  apply Forall_app in Hi as [Hi _].
  destruct (visit_raises l1 r l2 e s Hi Hl1 Hr) as (H1 & _ & H3). done.
Qed.

Lemma later_not_received s l1 r l2 r' :
  _subscribers s = l1 ++ r :: l2 →
  NoDup (addrs (_subscribers s)) →
  r' ∈ l2 →
  received_of (addr r') (delivery s <$> (l1 ++ [r])) = [].
Proof.
  intros Hs Hnd Hr'. apply received_of_delivery_absent.
  rewrite Hs in Hnd. unfold addrs in *.
  rewrite (assoc_L (++) l1 [r] l2 : l1 ++ r :: l2 = (l1 ++ [r]) ++ l2) in Hnd.
  rewrite fmap_app in Hnd. apply NoDup_app in Hnd as (_ & Hnd & _).
  intros Hin. apply (Hnd _ Hin). by apply list_elem_of_fmap_2.
Qed.

(** C4, as the specification has it, fails: the first subscriber of
    [flaky_channel] raises, [upload_video] raises with it, and the second
    subscriber, which would have returned, is never called. *)
Lemma notify_skips_after_failure :
  _subscribers flaky_channel = [failing_subscriber; subscriber1] ∧
  returns "Clean Code Principles in Python" "TechMaster" subscriber1 ∧
  result (upload_video "Clean Code Principles in Python" flaky_channel) =
    inr (Exception "delivery failed") ∧
  invocations (events (upload_video "Clean Code Principles in Python" flaky_channel)) =
    [(addr failing_subscriber, "Clean Code Principles in Python", "TechMaster")] ∧
  received (addr subscriber1)
    (events (upload_video "Clean Code Principles in Python" flaky_channel)) = [] ∧
  ¬ (∀ r, r ∈ _subscribers flaky_channel →
       received (addr r)
         (events (upload_video "Clean Code Principles in Python" flaky_channel)) ≠ []).
Proof.
  split_and!; try reflexivity.
  intros H. apply (H subscriber1); [| reflexivity].
  change (subscriber1 ∈ [failing_subscriber; subscriber1]). repeat constructor.
Qed.

(** C4, amended.  When no subscribed callback calls the channel while it
    runs, the fan-out stops at the first subscriber whose
    callback raises: the subscribers before it and the failing one have been
    called, no subscriber after it is (on a list without repetition), and the
    exception is raised by [notify], which leaves the channel as it was, and
    by [upload_video], which leaves it with the new title already stored in
    [_latest_video].  When no callback raises, every subscriber is called and
    [notify] returns. *)
Theorem notify_stops_at_first_failure (X : string) (s : YouTubeChannel) :
  (Forall (inert (_latest_video s) (_channel_name s)) (_subscribers s) →
   Forall (returns (_latest_video s) (_channel_name s)) (_subscribers s) →
   result (notify s) = inl tt ∧
   invocations (events (notify s)) = delivery s <$> _subscribers s) ∧
  (∀ l1 r l2 e,
     Forall (inert (_latest_video s) (_channel_name s)) (_subscribers s) →
     _subscribers s = l1 ++ r :: l2 →
     Forall (returns (_latest_video s) (_channel_name s)) l1 →
     raised (call_update (obj r) (_latest_video s) (_channel_name s)) = Some e →
     result (notify s) = inr e ∧
     state (notify s) = s ∧
     invocations (events (notify s)) = delivery s <$> (l1 ++ [r]) ∧
     (NoDup (addrs (_subscribers s)) →
      ∀ r', r' ∈ l2 → received (addr r') (events (notify s)) = [])) ∧
  (∀ l1 r l2 e,
     Forall (inert X (_channel_name s)) (_subscribers s) →
     _subscribers s = l1 ++ r :: l2 →
     Forall (returns X (_channel_name s)) l1 →
     raised (call_update (obj r) X (_channel_name s)) = Some e →
     result (upload_video X s) = inr e ∧
     state (upload_video X s) = with_latest_video X s ∧
     invocations (events (upload_video X s)) =
       (λ r, (addr r, X, _channel_name s)) <$> (l1 ++ [r]) ∧
     (NoDup (addrs (_subscribers s)) →
      ∀ r', r' ∈ l2 → received (addr r') (events (upload_video X s)) = [])).
Proof.
  split_and!.
  - apply notify_returns.
  - intros l1 r l2 e Hi Hs Hl1 Hr.
    destruct (notify_raises s l1 r l2 e Hi Hs Hl1 Hr) as (Hres & Hst & Hinv).
    split_and!; [done | done | done |].
    intros Hnd r' Hr'. unfold received. rewrite Hinv. by eapply later_not_received.
  - intros l1 r l2 e Hi Hs Hl1 Hr.
    destruct (notify_raises (with_latest_video X s) l1 r l2 e Hi Hs Hl1 Hr)
      as (Hres & Hst & Hinv).
    rewrite upload_video_result, upload_video_state_notify, upload_video_invocations.
    split_and!; [done | done | done |].
    intros Hnd r' Hr'. unfold received. rewrite upload_video_invocations, Hinv.
    by apply (later_not_received (with_latest_video X s) l1 r l2 r').
Qed.

Lemma notify_stops_at_first_failure_witness :
  Forall (inert "Clean Code Principles in Python" "TechMaster") (_subscribers patchy_channel) ∧
  _subscribers patchy_channel = [subscriber1] ++ failing_subscriber :: [subscriber3] ∧
  Forall (returns "Clean Code Principles in Python" "TechMaster") [subscriber1] ∧
  raised (call_update (obj failing_subscriber) "Clean Code Principles in Python" "TechMaster")
    = Some (Exception "delivery failed") ∧
  NoDup (addrs (_subscribers patchy_channel)) ∧
  result (upload_video "Clean Code Principles in Python" patchy_channel) =
    inr (Exception "delivery failed") ∧
  _latest_video (state (upload_video "Clean Code Principles in Python" patchy_channel)) =
    "Clean Code Principles in Python" ∧
  (invocations (events (upload_video "Clean Code Principles in Python"
                          patchy_channel))).*1.*1 = [0; 7] ∧
  received (addr subscriber3)
    (events (upload_video "Clean Code Principles in Python" patchy_channel)) = [].
Proof.
  assert (Forall (inert "Clean Code Principles in Python" "TechMaster")
            (_subscribers patchy_channel)) as Hi by (repeat constructor).
  assert (Forall (returns "Clean Code Principles in Python" "TechMaster") [subscriber1])
    as Hr by (repeat constructor).
  assert (NoDup (addrs (_subscribers patchy_channel))) as Hnd
    by apply (reachable_NoDup "TechMaster" [_; _; _]).
  pose proof (notify_stops_at_first_failure "Clean Code Principles in Python" patchy_channel)
    as (_ & _ & H).
  destruct (H [subscriber1] failing_subscriber [subscriber3] (Exception "delivery failed")
              Hi eq_refl Hr eq_refl) as (Hres & Hst & Hinv & Hskip).
  split_and!; [exact Hi | reflexivity | exact Hr | reflexivity | exact Hnd | exact Hres
              | by rewrite Hst | by rewrite Hinv |].
  apply Hskip; [exact Hnd | constructor].
Defined.

(** ** Unsubscribing *)

(** C5. [detach] never raises.  With an observer that is not subscribed it
    does nothing: the channel is left as found and nothing is printed.  With a
    subscribed observer it takes one entry out of the list, the observer's,
    and leaves the others; the list changes exactly when the observer was
    subscribed.  On a list without repetition the observer is no longer
    subscribed afterwards, and a second [detach] changes nothing more. *)
Theorem detach_removes_iff_present (observer : ref) (s : YouTubeChannel) :
  result (detach observer s) = inl tt ∧
  (addr observer ∉ addrs (_subscribers s) → detach observer s = (inl tt, s, [])) ∧
  (addr observer ∈ addrs (_subscribers s) →
   S (length (_subscribers (state (detach observer s)))) = length (_subscribers s) ∧
   ∀ a, a ≠ addr observer →
        (a ∈ addrs (_subscribers (state (detach observer s))) ↔ a ∈ addrs (_subscribers s))) ∧
  (_subscribers (state (detach observer s)) ≠ _subscribers s ↔
   addr observer ∈ addrs (_subscribers s)) ∧
  (NoDup (addrs (_subscribers s)) →
   (addr observer ∉ addrs (_subscribers (state (detach observer s)))) ∧
   detach observer (state (detach observer s)) = (inl tt, state (detach observer s), []) ∧
   state (detach observer (state (detach observer s))) = state (detach observer s)).
Proof.
  assert (addr observer ∈ addrs (_subscribers s) →
          ∃ l1 y l2, _subscribers s = l1 ++ y :: l2 ∧ addr y = addr observer ∧
                     _subscribers (state (detach observer s)) = l1 ++ l2) as Hpresent.
  { intros Hin%list_contains_addrs.
    destruct (detach_present _ _ Hin) as (l1 & y & l2 & Hs & Hy & _ & ->).
    by exists l1, y, l2. }
  assert (NoDup (addrs (_subscribers s)) →
          addr observer ∉ addrs (_subscribers (state (detach observer s)))) as Hgone.
  { intros Hnd. destruct (list_contains observer (_subscribers s)) eqn:E.
    - apply list_contains_addrs in E.
      destruct (Hpresent E) as (l1 & y & l2 & Hs & Hy & ->).
      rewrite Hs in Hnd. unfold addrs in *.
      rewrite fmap_app, fmap_cons, Hy in Hnd. rewrite fmap_app.
      apply NoDup_app in Hnd as (_ & H1 & H2). apply NoDup_cons in H2 as [H2 _].
      rewrite elem_of_app. intros [Hin | Hin]; [| done].
      apply (H1 _ Hin). constructor.
    - rewrite detach_absent by done. by apply list_contains_false. }
  split_and!.
  - apply detach_result.
  - intros Hout%list_contains_false. by apply detach_absent.
  - intros (l1 & y & l2 & Hs & Hy & ->)%Hpresent. rewrite Hs. split.
    + rewrite !length_app. cbn. lia.
    + intros a Ha. unfold addrs. rewrite !fmap_app, fmap_cons, !elem_of_app, elem_of_cons.
      rewrite Hy. intuition congruence.
  - split.
    + intros Hne. destruct (list_contains observer (_subscribers s)) eqn:E.
      * by apply list_contains_addrs.
      * by rewrite detach_absent in Hne.
    + intros (l1 & y & l2 & Hs & Hy & ->)%Hpresent Heq.
      apply (f_equal length) in Heq. rewrite Hs, !length_app in Heq. cbn in Heq. lia.
  - intros Hnd. pose proof (Hgone Hnd) as Hout. split; [done |].
    apply list_contains_false in Hout. by rewrite detach_absent.
Qed.

Lemma detach_removes_iff_present_witness :
  addr subscriber2 ∈ addrs (_subscribers tech_channel) ∧
  NoDup (addrs (_subscribers tech_channel)) ∧
  addrs (_subscribers (state (detach subscriber2 tech_channel))) = [0; 2] ∧
  S (length (_subscribers (state (detach subscriber2 tech_channel)))) = 3 ∧
  state (detach subscriber2 (state (detach subscriber2 tech_channel))) =
    state (detach subscriber2 tech_channel) ∧
  detach subscriber4 tech_channel = (inl tt, tech_channel, []).
Proof.
  pose proof (detach_removes_iff_present subscriber2 tech_channel)
    as (_ & _ & Hin & _ & Htwice).
  pose proof (detach_removes_iff_present subscriber4 tech_channel)
    as (_ & Hout & _).
  assert (addr subscriber2 ∈ addrs (_subscribers tech_channel)) as H2.
  { change (1 ∈ [0; 1; 2]). solve_addr_in. }
  destruct (Hin H2) as [Hlen _].
  destruct (Htwice tech_channel_NoDup) as (_ & _ & Hsame).
  split_and!; [exact H2 | exact tech_channel_NoDup | reflexivity | exact Hlen | exact Hsame |].
  apply Hout. change (3 ∉ [0; 1; 2]). solve_addr_in.
Defined.

(** ** Totality *)

(** C6, as the specification has it, fails: on [flaky_channel], to which
    nothing has been uploaded yet, [notify] raises, and so does
    [upload_video]. *)
Lemma notify_before_upload_raises :
  flaky_channel =
    run [Attach failing_subscriber; Attach subscriber1] (__init__ "TechMaster") ∧
  _latest_video flaky_channel = "" ∧
  result (notify flaky_channel) = inr (Exception "delivery failed") ∧
  result (upload_video "Python Design Patterns Tutorial" flaky_channel) =
    inr (Exception "delivery failed").
Proof. split_and!; reflexivity. Qed.

(** C6, amended.  [attach], [detach] and the [channel_name] property return
    on every channel and argument.  When no subscribed callback calls the
    channel while it runs, [notify] and [upload_video] return exactly when
    the subscribers' callbacks do, and an exception they raise is one that a
    subscriber's callback raised.  A new channel has the empty string as its
    latest video and no subscriber, and [notify] on it returns; with
    observers whose callbacks never call the channel, the latest video stays
    empty as long as no video is uploaded, and [notify] then calls the
    subscribers, when their callbacks return, with the empty string and the
    channel's name. *)
Theorem operations_total :
  (∀ observer s, result (attach observer s) = inl tt) ∧
  (∀ observer s, result (detach observer s) = inl tt) ∧
  (∀ s, channel_name s = (inl (_channel_name s), s, [])) ∧
  (∀ s, Forall (inert (_latest_video s) (_channel_name s)) (_subscribers s) →
        Forall (returns (_latest_video s) (_channel_name s)) (_subscribers s) ↔
        result (notify s) = inl tt) ∧
  (∀ X s, Forall (inert X (_channel_name s)) (_subscribers s) →
          Forall (returns X (_channel_name s)) (_subscribers s) ↔
          result (upload_video X s) = inl tt) ∧
  (∀ s e, Forall (inert (_latest_video s) (_channel_name s)) (_subscribers s) →
          result (notify s) = inr e →
          ∃ r, r ∈ _subscribers s ∧
               raised (call_update (obj r) (_latest_video s) (_channel_name s)) = Some e) ∧
  (∀ X s e, Forall (inert X (_channel_name s)) (_subscribers s) →
            result (upload_video X s) = inr e →
            ∃ r, r ∈ _subscribers s ∧
                 raised (call_update (obj r) X (_channel_name s)) = Some e) ∧
  (∀ name, _latest_video (__init__ name) = "" ∧
           _subscribers (__init__ name) = [] ∧
           result (notify (__init__ name)) = inl tt ∧
           invocations (events (notify (__init__ name))) = []) ∧
  (∀ name cs, Forall (λ c, ∀ X, c ≠ UploadVideo X) cs →
     Forall (λ c, ∀ observer, c = Attach observer → peaceful (obj observer)) cs →
     _latest_video (run cs (__init__ name)) = "" ∧
     (Forall (returns "" name) (_subscribers (run cs (__init__ name))) →
      result (notify (run cs (__init__ name))) = inl tt ∧
      invocations (events (notify (run cs (__init__ name)))) =
        (λ r, (addr r, "", name)) <$> _subscribers (run cs (__init__ name)))).
Proof.
  split_and!.
  - apply attach_result.
  - apply detach_result.
  - done.
  - intros s Hi. rewrite notify_result by done. symmetry. by apply visit_result_inl.
  - intros X s Hi. rewrite upload_video_result.
    rewrite (notify_result (with_latest_video X s)) by done. symmetry.
    by apply (visit_result_inl _ (with_latest_video X s)).
  - intros s e Hi. rewrite notify_result by done. by apply visit_error.
  - intros X s e Hi. rewrite upload_video_result.
    rewrite (notify_result (with_latest_video X s)) by done.
    by apply (visit_error _ (with_latest_video X s)).
  - done.
  - intros name cs Hcs Hp.
    pose proof (run_latest_video cs (__init__ name) Hcs) as Hlatest.
    pose proof (run_channel_name cs (__init__ name)) as Hname.
    split; [done |]. intros Hret.
    destruct (notify_returns (run cs (__init__ name))) as [Hres Hinv].
    { apply peaceful_inert, run_peaceful; [done | apply Forall_nil_2]. }
    { by rewrite Hlatest, Hname. }
    split; [done |]. rewrite Hinv. unfold delivery. by rewrite Hlatest, Hname.
Qed.

Lemma operations_total_witness :
  Forall (λ c, ∀ X, c ≠ UploadVideo X)
         [Attach subscriber1; Attach subscriber2; Attach subscriber3] ∧
  Forall (λ c, ∀ observer, c = Attach observer → peaceful (obj observer))
         [Attach subscriber1; Attach subscriber2; Attach subscriber3] ∧
  Forall (returns "" "TechMaster") (_subscribers tech_channel) ∧
  result (notify tech_channel) = inl tt ∧
  invocations (events (notify tech_channel)) =
    [(0, "", "TechMaster"); (1, "", "TechMaster"); (2, "", "TechMaster")].
Proof.
  pose proof operations_total as (_ & _ & _ & _ & _ & _ & _ & _ & H).
  assert (Forall (λ c, ∀ X, c ≠ UploadVideo X)
            [Attach subscriber1; Attach subscriber2; Attach subscriber3]) as Hcs.
  { repeat constructor; discriminate. }
  assert (Forall (λ c, ∀ observer, c = Attach observer → peaceful (obj observer))
            [Attach subscriber1; Attach subscriber2; Attach subscriber3]) as Hp.
  { repeat constructor; intros observer [= <-]; apply repo_class_peaceful; constructor. }
  destruct (H "TechMaster" _ Hcs Hp) as [_ Hnotify].
  destruct (Hnotify (tech_channel_returns "")) as [Hres Hinv].
  split_and!; [exact Hcs | exact Hp | exact (tech_channel_returns "")
              | exact Hres | exact Hinv].
Defined.

(** ** The frame of each call *)

(** C7, as the specification has it, fails: an upload to [leaving_channel]
    leaves it with two subscribers of its three, the first having
    unsubscribed itself when it was called. *)
Lemma upload_video_changes_subscribers :
  addrs (_subscribers leaving_channel) = [20; 1; 2] ∧
  addrs (_subscribers (state (upload_video "Clean Code Principles in Python"
                                leaving_channel))) = [1; 2].
Proof. split; reflexivity. Qed.

(** C7, amended.  The name given to [__init__] is what [channel_name]
    returns after any sequence of calls, and reading it changes nothing; no
    call changes [_channel_name].  [attach] and [detach] leave
    [_latest_video] as it was.  When no subscribed callback calls the channel
    while it runs, [upload_video] leaves [_subscribers] as it was, and
    [notify] leaves the whole channel as it was. *)
Theorem channel_name_immutable (name : string) (cs : list call) :
  channel_name (run cs (__init__ name)) = (inl name, run cs (__init__ name), []) ∧
  (∀ c s, _channel_name (state (perform c s)) = _channel_name s) ∧
  (∀ observer s, _latest_video (state (attach observer s)) = _latest_video s) ∧
  (∀ observer s, _latest_video (state (detach observer s)) = _latest_video s) ∧
  (∀ X s, Forall (inert X (_channel_name s)) (_subscribers s) →
          _subscribers (state (upload_video X s)) = _subscribers s) ∧
  (∀ s, Forall (inert (_latest_video s) (_channel_name s)) (_subscribers s) →
        state (notify s) = s).
Proof.
  split_and!.
  - unfold channel_name, get. by rewrite run_channel_name.
  - apply perform_channel_name.
  - intros observer s. by destruct (attach_state observer s) as [l ->].
  - intros observer s. by destruct (detach_state observer s) as [l ->].
  - intros X s Hi. by rewrite upload_video_state.
  - apply notify_state.
Qed.

Lemma channel_name_immutable_witness :
  Forall (inert "Clean Code Principles in Python" "TechMaster") (_subscribers tech_channel) ∧
  _subscribers (state (upload_video "Clean Code Principles in Python" tech_channel)) =
    [subscriber1; subscriber2; subscriber3] ∧
  channel_name (state (upload_video "Clean Code Principles in Python" tech_channel)) =
    (inl "TechMaster", state (upload_video "Clean Code Principles in Python" tech_channel), []).
Proof.
  pose proof (channel_name_immutable "TechMaster"
                [Attach subscriber1; Attach subscriber2; Attach subscriber3;
                 UploadVideo "Clean Code Principles in Python"])
    as (Hname & _ & _ & _ & Hsubs & _).
  split_and!; [exact (tech_channel_inert "Clean Code Principles in Python") | | exact Hname].
  exact (Hsubs "Clean Code Principles in Python" tech_channel
           (tech_channel_inert "Clean Code Principles in Python")).
Defined.

(** ** The confirmation lines *)

(** C8. [attach] prints its confirmation line, and nothing else, exactly
    when it appends the observer to the subscriber list: when the observer is
    already subscribed it prints nothing and leaves the channel as found.
    [detach] prints its line, and nothing else, exactly when it takes an entry
    out of the list: when the observer is not subscribed it prints nothing and
    leaves the channel as found. *)
Theorem confirmation_iff_change (observer : ref) (s : YouTubeChannel) :
  (events (attach observer s) =
     [Printed ("✓ " +:+ str (obj observer) +:+ " subscribed to " +:+ _channel_name s)]
   ↔ _subscribers (state (attach observer s)) = _subscribers s ++ [observer]) ∧
  (events (attach observer s) = [] ↔ state (attach observer s) = s) ∧
  (events (attach observer s) = [] ↔ addr observer ∈ addrs (_subscribers s)) ∧
  (events (attach observer s) = [] ∨
   events (attach observer s) =
     [Printed ("✓ " +:+ str (obj observer) +:+ " subscribed to " +:+ _channel_name s)]) ∧
  (events (detach observer s) =
     [Printed ("✗ " +:+ str (obj observer) +:+ " unsubscribed from " +:+ _channel_name s)]
   ↔ S (length (_subscribers (state (detach observer s)))) = length (_subscribers s)) ∧
  (events (detach observer s) = [] ↔ state (detach observer s) = s) ∧
  (events (detach observer s) = [] ↔ addr observer ∉ addrs (_subscribers s)) ∧
  (events (detach observer s) = [] ∨
   events (detach observer s) =
     [Printed ("✗ " +:+ str (obj observer) +:+ " unsubscribed from " +:+ _channel_name s)]).
Proof.
  destruct (list_contains observer (_subscribers s)) eqn:E.
  - pose proof E as Hin%list_contains_addrs.
    rewrite attach_present by done.
    destruct (detach_present _ _ E) as (l1 & y & l2 & Hs & Hy & _ & ->).
    unfold events, state. cbn [fst snd]. split_and!.
    + split; [done |]. intros Heq%(f_equal length).
      rewrite length_app in Heq. cbn in Heq. lia.
    + done.
    + done.
    + by left.
    + split; [| done]. intros _. cbn. rewrite Hs, !length_app. cbn. lia.
    + split; [done |]. intros Heq%(f_equal (λ s', length (_subscribers s'))).
      cbn in Heq. rewrite Hs, !length_app in Heq. cbn in Heq. lia.
    + split; [done |]. by intros [].
    + by right.
  - pose proof E as Hout%list_contains_false.
    rewrite attach_absent, detach_absent by done.
    unfold events, state. cbn [fst snd]. split_and!.
    + done.
    + split; [done |]. intros Heq%(f_equal (λ s', length (_subscribers s'))).
      cbn in Heq. rewrite length_app in Heq. cbn in Heq. lia.
    + split; [done |]. by intros []%Hout.
    + by right.
    + split; [done |]. lia.
    + done.
    + done.
    + by left.
Qed.

Lemma confirmation_iff_change_witness :
  _subscribers (state (attach subscriber4 tech_channel)) =
    _subscribers tech_channel ++ [subscriber4] ∧
  events (attach subscriber4 tech_channel) =
    [Printed "✓ EmailSubscriber(charlie@example.com) subscribed to TechMaster"] ∧
  (addr subscriber4 ∉ addrs (_subscribers tech_channel)) ∧
  events (detach subscriber4 tech_channel) = [].
Proof.
  pose proof (confirmation_iff_change subscriber4 tech_channel)
    as (Hadd & _ & _ & _ & _ & _ & Hdel & _).
  assert (addr subscriber4 ∉ addrs (_subscribers tech_channel)) as Hout.
  { change (3 ∉ [0; 1; 2]). solve_addr_in. }
  split_and!; [reflexivity | | exact Hout |].
  - apply Hadd. reflexivity.
  - apply Hdel, Hout.
Defined.

(** ** Identity, not configuration *)

(** C9. Two [EmailSubscriber] objects made with the same address are two
    objects: they do not compare equal, both can be attached to the same
    channel, and an upload calls each of them once, in the order of their
    subscription. *)
Theorem same_configuration_distinct_subscribers (email name X : string) (next : nat) :
  let a := (new {| _email := email |} next).1 in
  let b := (new {| _email := email |} (new {| _email := email |} next).2).1 in
  let s := run [Attach a; Attach b] (__init__ name) in
  obj a = obj b ∧
  addr a ≠ addr b ∧
  py_eq a b = false ∧
  _subscribers s = [a; b] ∧
  result (upload_video X s) = inl tt ∧
  invocations (events (upload_video X s)) = [(addr a, X, name); (addr b, X, name)] ∧
  received (addr a) (events (upload_video X s)) = [(X, name)] ∧
  received (addr b) (events (upload_video X s)) = [(X, name)].
Proof.
  intros a b s.
  assert (addr a ≠ addr b) as Hab by (cbn; lia).
  assert (py_eq a b = false) as Heq by by apply bool_decide_eq_false.
  assert (_subscribers s = [a; b]) as Hs.
  { unfold s. change [Attach a; Attach b] with (Attach <$> [a; b]).
    rewrite run_attach_new; [done |].
    cbn. apply NoDup_cons. split; [solve_addr_in | apply NoDup_singleton]. }
  assert (_channel_name s = name) as Hname by apply run_channel_name.
  clearbody s.
  assert (Forall (returns X (_channel_name s)) (_subscribers s)) as Hret.
  { rewrite Hs. by repeat constructor. }
  assert (Forall (inert X (_channel_name s)) (_subscribers s)) as Hi.
  { rewrite Hs. by repeat constructor. }
  destruct (notify_returns (with_latest_video X s) Hi Hret) as [Hres Hinv].
  assert (invocations (events (upload_video X s)) = [(addr a, X, name); (addr b, X, name)])
    as Hcalls.
  { rewrite upload_video_invocations, Hinv. cbn [with_latest_video _subscribers].
    rewrite Hs. unfold delivery. cbn [with_latest_video _latest_video _channel_name].
    by rewrite Hname. }
  split_and!; try done.
  - by rewrite upload_video_result.
  - unfold received, received_of. rewrite Hcalls.
    rewrite filter_cons_True by done. rewrite filter_cons_False; [done |].
    cbn. lia.
  - unfold received, received_of. rewrite Hcalls.
    rewrite filter_cons_False by (cbn; lia). by rewrite filter_cons_True.
Qed.

(** ** Unsubscribing keeps the order *)

(** C10, as the specification has it, fails: [detach] takes the first
    subscriber out of [crowded_channel] and leaves the other three in their
    order; their callbacks return, and the next upload calls the first and
    the third of them only, the first unsubscribing itself when called. *)
Lemma detach_then_upload_skips :
  addrs (_subscribers crowded_channel) = [0; 20; 1; 2] ∧
  addrs (_subscribers (state (detach subscriber1 crowded_channel))) = [20; 1; 2] ∧
  Forall (returns "Clean Code Principles in Python" "TechMaster")
         (_subscribers (state (detach subscriber1 crowded_channel))) ∧
  result (upload_video "Clean Code Principles in Python"
            (state (detach subscriber1 crowded_channel))) = inl tt ∧
  (invocations (events (upload_video "Clean Code Principles in Python"
      (state (detach subscriber1 crowded_channel))))).*1.*1 = [20; 2].
Proof. split_and!; try reflexivity. repeat constructor. Qed.

(** C10, amended.  [detach] of a subscribed observer takes its entry (the
    first one with its identity) out of the subscriber list and leaves the
    others where they were, one after the other as before: the list is one
    shorter.  When none of the remaining subscribers' callbacks calls the
    channel while it runs, the next upload calls along the remaining
    subscribers in that order, all of them when the callbacks return. *)
Theorem detach_keeps_order (observer : ref) (s : YouTubeChannel) :
  addr observer ∈ addrs (_subscribers s) →
  ∃ l1 y l2,
    _subscribers s = l1 ++ y :: l2 ∧ addr y = addr observer ∧
    (addr observer ∉ addrs l1) ∧
    _subscribers (state (detach observer s)) = l1 ++ l2 ∧
    S (length (_subscribers (state (detach observer s)))) = length (_subscribers s) ∧
    _subscribers (state (detach observer s)) `sublist_of` _subscribers s ∧
    (∀ X, Forall (inert X (_channel_name s)) (l1 ++ l2) →
          invocations (events (upload_video X (state (detach observer s))))
            `prefix_of` (λ r, (addr r, X, _channel_name s)) <$> (l1 ++ l2)) ∧
    ∀ X, Forall (inert X (_channel_name s)) (l1 ++ l2) →
         Forall (returns X (_channel_name s)) (l1 ++ l2) →
         result (upload_video X (state (detach observer s))) = inl tt ∧
         invocations (events (upload_video X (state (detach observer s)))) =
           (λ r, (addr r, X, _channel_name s)) <$> (l1 ++ l2).
Proof.
  intros Hin%list_contains_addrs.
  destruct (detach_present _ _ Hin) as (l1 & y & l2 & Hs & Hy & Hl1 & Hd).
  exists l1, y, l2. rewrite Hd, Hs. unfold state. cbn [fst snd with_subscribers _subscribers].
  split_and!; try done.
  - rewrite !length_app. cbn. lia.
  - apply sublist_app; [done |]. by apply sublist_cons.
  - intros X Hi. rewrite upload_video_invocations.
    by apply (notify_prefix (with_latest_video X (with_subscribers (l1 ++ l2) s))).
  - intros X Hi Hret.
    destruct (notify_returns (with_latest_video X (with_subscribers (l1 ++ l2) s)) Hi Hret)
      as [Hres Hinv].
    split; [by rewrite upload_video_result |].
    by rewrite upload_video_invocations, Hinv.
Qed.

Lemma detach_keeps_order_witness :
  addr subscriber2 ∈ addrs (_subscribers tech_channel) ∧
  _subscribers (state (detach subscriber2 tech_channel)) = [subscriber1; subscriber3] ∧
  ∃ l1 y l2,
    _subscribers tech_channel = l1 ++ y :: l2 ∧
    _subscribers (state (detach subscriber2 tech_channel)) = l1 ++ l2 ∧
    S (length (_subscribers (state (detach subscriber2 tech_channel)))) = 3.
Proof.
  assert (addr subscriber2 ∈ addrs (_subscribers tech_channel)) as Hin.
  { change (1 ∈ [0; 1; 2]). solve_addr_in. }
  destruct (detach_keeps_order subscriber2 tech_channel Hin)
    as (l1 & y & l2 & Hs & _ & _ & Hd & Hlen & _).
  split_and!; [exact Hin | reflexivity |].
  exists l1, y, l2. split_and!; [exact Hs | exact Hd | exact Hlen].
Defined.

(** ** The subscribers of [observers.py], notified *)

(** X1. On a channel whose subscribers are objects of the three classes of
    [observers.py], [notify] and [upload_video] never raise, whatever the
    title and the channel's name: every subscriber is called, in the order of
    the list, and on a list without repetition each exactly once. *)
Theorem repo_subscribers_all_notified (X : string) (s : YouTubeChannel) :
  Forall (λ r, repo_class (obj r)) (_subscribers s) →
  result (notify s) = inl tt ∧
  result (upload_video X s) = inl tt ∧
  invocations (events (upload_video X s)) =
    (λ r, (addr r, X, _channel_name s)) <$> _subscribers s ∧
  (NoDup (addrs (_subscribers s)) →
   ∀ r, r ∈ _subscribers s →
        received (addr r) (events (upload_video X s)) = [(X, _channel_name s)]).
Proof.
  intros Hrepo.
  pose proof (repo_class_returns (_latest_video s) (_channel_name s) _ Hrepo) as Hret.
  pose proof (repo_class_returns X (_channel_name s) _ Hrepo) as HretX.
  pose proof (repo_class_inert (_latest_video s) (_channel_name s) _ Hrepo) as Hi.
  pose proof (repo_class_inert X (_channel_name s) _ Hrepo) as HiX.
  destruct (notify_returns s Hi Hret) as [Hres _].
  destruct (notify_returns (with_latest_video X s) HiX HretX) as [HresX HinvX].
  split_and!.
  - done.
  - by rewrite upload_video_result.
  - by rewrite upload_video_invocations, HinvX.
  - intros Hnd r Hr. unfold received. rewrite upload_video_invocations, HinvX.
    apply (received_of_delivery_present _ (with_latest_video X s)); [done |].
    by apply list_elem_of_fmap_2.
Qed.

Lemma repo_subscribers_all_notified_witness :
  Forall (λ r, repo_class (obj r)) (_subscribers tech_channel) ∧
  result (upload_video "Clean Code Principles in Python" tech_channel) = inl tt ∧
  invocations (events (upload_video "Clean Code Principles in Python" tech_channel)) =
    [ (0, "Clean Code Principles in Python", "TechMaster");
      (1, "Clean Code Principles in Python", "TechMaster");
      (2, "Clean Code Principles in Python", "TechMaster") ].
Proof.
  destruct (repo_subscribers_all_notified "Clean Code Principles in Python" tech_channel
              tech_channel_repo_class) as (_ & Hres & Hinv & _).
  split_and!; [exact tech_channel_repo_class | exact Hres | exact Hinv].
Defined.

(** ** The transcript of a fan-out *)

Lemma notify_quiet_events s :
  Forall (inert (_latest_video s) (_channel_name s)) (_subscribers s) →
  Forall (returns (_latest_video s) (_channel_name s)) (_subscribers s) →
  events (notify s) =
    Printed ("
🔔 Notifying " +:+ pretty (length (_subscribers s)) +:+ " subscribers...")
    :: concat (transcript_of s <$> _subscribers s) ∧
  length (invocations (events (notify s))) = length (_subscribers s).
Proof.
  intros Hi Hret. split.
  - rewrite notify_visit by done.
    pose proof (visit_transcript _ s Hi Hret) as Hev.
    destruct (visit _ s) as [[res s'] ev]. unfold events in *. cbn in *.
    by rewrite Hev.
  - destruct (notify_returns s Hi Hret) as [_ ->]. apply length_fmap.
Qed.

(** X2. When the callbacks return and none of them calls the channel
    while it runs, what [notify] shows is its
    announcement, with the number of subscribers, and then, subscriber after
    subscriber in the order of the list, the call of [update] followed by the
    lines that call prints: the lines of two subscribers are never
    interleaved.  The number announced is then the number of calls made. *)
Theorem notify_transcript (s : YouTubeChannel) :
  Forall (inert (_latest_video s) (_channel_name s)) (_subscribers s) →
  Forall (returns (_latest_video s) (_channel_name s)) (_subscribers s) →
  events (notify s) =
    Printed ("
🔔 Notifying " +:+ pretty (length (_subscribers s)) +:+ " subscribers...")
    :: concat (transcript_of s <$> _subscribers s) ∧
  length (invocations (events (notify s))) = length (_subscribers s).
Proof. apply notify_quiet_events. Qed.

Lemma notify_transcript_witness :
  Forall (inert "" "TechMaster") (_subscribers tech_channel) ∧
  Forall (returns "" "TechMaster") (_subscribers tech_channel) ∧
  events (notify tech_channel) =
    [ Printed "
🔔 Notifying 3 subscribers...";
      Invoked 0 "" "TechMaster";
      Printed "📧 Email sent to alice@example.com:";
      Printed "   'TechMaster' uploaded ''";
      Invoked 1 "" "TechMaster";
      Printed "📱 Push notification to @bob_dev:";
      Printed "   New video from TechMaster: ''";
      Invoked 2 "" "TechMaster";
      Printed "💬 SMS to +7-777-123-4567:";
      Printed "   TechMaster: ''" ].
Proof.
  destruct (notify_transcript tech_channel (tech_channel_inert "") (tech_channel_returns ""))
    as [Hev _].
  split_and!; [exact (tech_channel_inert "") | exact (tech_channel_returns "") | exact Hev].
Defined.

Lemma printed_lines_app ev1 ev2 :
  printed_lines (ev1 ++ ev2) = printed_lines ev1 ++ printed_lines ev2.
Proof.
  induction ev1 as [|[line|a v c] ev1 IH]; simpl; [done | | done]. by rewrite IH.
Qed.

Lemma printed_lines_Printed lines : printed_lines (Printed <$> lines) = lines.
Proof.
  induction lines as [|line lines IH]; [done |].
  rewrite fmap_cons. cbn [printed_lines]. by rewrite IH.
Qed.

Lemma printed_lines_repo s l :
  Forall (λ r, repo_class (obj r)) l →
  length (printed_lines (concat (transcript_of s <$> l))) = 2 * length l.
Proof.
  induction 1 as [|r l Hr _ IH]; [done |].
  rewrite fmap_cons. cbn [concat]. rewrite printed_lines_app, length_app, IH.
  unfold transcript_of. cbn [printed_lines]. rewrite printed_lines_Printed.
  destruct (repo_class_update _ (_latest_video s) (_channel_name s) Hr) as (_ & -> & _).
  cbn [length]. lia.
Qed.

(** X3. With [n] subscribers of the classes of [observers.py], an upload
    makes [2 + 2 * n] calls of [print] (its own, the announcement of
    [notify], and two per subscriber) and [n] calls of [update]; with no
    subscriber it prints its line and the announcement, calls nobody and
    returns. *)
Theorem upload_video_output_size (X : string) (s : YouTubeChannel) :
  Forall (λ r, repo_class (obj r)) (_subscribers s) →
  length (printed_lines (events (upload_video X s))) = 2 + 2 * length (_subscribers s) ∧
  length (invocations (events (upload_video X s))) = length (_subscribers s) ∧
  (_subscribers s = [] →
   upload_video X s =
     (inl tt, with_latest_video X s,
      [ Printed ("
📹 " +:+ _channel_name s +:+ " uploaded: '" +:+ X +:+ "'");
        Printed "
🔔 Notifying 0 subscribers..." ])).
Proof.
  intros Hrepo.
  pose proof (repo_class_returns X (_channel_name s) _ Hrepo) as Hret.
  pose proof (repo_class_inert X (_channel_name s) _ Hrepo) as Hi.
  destruct (notify_quiet_events (with_latest_video X s) Hi Hret) as [Hev Hn].
  split_and!.
  - rewrite upload_video_notify.
    destruct (notify _) as [[res s'] ev]. unfold events in *. cbn in *.
    rewrite Hev. cbn [printed_lines length].
    rewrite (printed_lines_repo (with_latest_video X s)) by done. lia.
  - by rewrite upload_video_invocations, Hn.
  - intros Hs. rewrite upload_video_notify, notify_visit by done.
    cbn [with_latest_video _subscribers]. by rewrite Hs.
Qed.

Lemma upload_video_output_size_witness :
  Forall (λ r, repo_class (obj r)) (_subscribers tech_channel) ∧
  length (printed_lines (events (upload_video "Clean Code Principles in Python" tech_channel)))
    = 8 ∧
  length (invocations (events (upload_video "Clean Code Principles in Python" tech_channel)))
    = 3.
Proof.
  destruct (upload_video_output_size "Clean Code Principles in Python" tech_channel
              tech_channel_repo_class) as (Hlines & Hcalls & _).
  split_and!; [exact tech_channel_repo_class | exact Hlines | exact Hcalls].
Defined.

(** ** [__str__] *)

Lemma string_length_append (s1 s2 : string) :
  String.length (s1 +:+ s2) = String.length s1 + String.length s2.
Proof. induction s1 as [|c s1 IH]; simpl; [done |]. by f_equal. Qed.

Lemma append_inj_l (s1 s2 t : string) : s1 +:+ t = s2 +:+ t → s1 = s2.
Proof.
  intros H.
  assert (String.length s1 = String.length s2) as Hlen.
  { apply (f_equal String.length) in H. rewrite !string_length_append in H. lia. }
  revert s2 H Hlen. induction s1 as [|c s1 IH]; intros [|c' s2] H Hlen; try done.
  cbn in H. injection H as -> H. f_equal. apply IH; [done |]. cbn in Hlen. lia.
Qed.

(** X4. [__str__] tells the observers of [observers.py] apart: two of them
    with the same string are of the same class and have the same address,
    user name or phone number. *)
Theorem str_injective (o1 o2 : object) :
  repo_class o1 → repo_class o2 → str o1 = str o2 → o1 = o2.
Proof.
  intros [[e1]|[u1]|[p1]] [[e2]|[u2]|[p2]]; unfold str; simpl; intros H;
    try discriminate; injection H as H;
    match type of H with
    | "" +:+ ?x +:+ ")" = "" +:+ ?y +:+ ")" => apply (append_inj_l x y ")") in H as ->
    end; done.
Qed.

Lemma str_injective_witness :
  repo_class (obj subscriber1) ∧
  str (obj subscriber1) = "EmailSubscriber(alice@example.com)" ∧
  obj subscriber1 = Object {| _email := "alice@example.com" |}.
Proof.
  split_and!; [constructor | reflexivity |].
  apply (str_injective (obj subscriber1) (Object {| _email := "alice@example.com" |}));
    [constructor | constructor | reflexivity].
Defined.

(** ** Subscribing and unsubscribing, one after the other *)

Lemma remove_first_app_new x l : addr x ∉ addrs l → remove_first x (l ++ [x]) = l.
Proof.
  induction l as [|y l IH]; intros Hx.
  - cbn [app]. rewrite remove_first_cons. unfold py_eq. by rewrite bool_decide_eq_true_2.
  - unfold addrs in *. rewrite fmap_cons, not_elem_of_cons in Hx. destruct Hx as [Hy Hl].
    cbn [app]. rewrite remove_first_cons. unfold py_eq.
    rewrite bool_decide_eq_false_2 by done. by rewrite IH.
Qed.

Lemma remove_first_filter x l :
  NoDup (addrs l) → remove_first x l = filter (λ r, addr r ≠ addr x) l.
Proof.
  induction l as [|y l IH]; [done |].
  unfold addrs in *. rewrite fmap_cons, NoDup_cons. intros [Hy Hl].
  rewrite remove_first_cons. unfold py_eq. case_bool_decide as E.
  - rewrite filter_cons_False by (intros H; by apply H).
    rewrite <- IH by done. rewrite E in Hy. by rewrite remove_first_absent.
  - rewrite filter_cons_True by done. by rewrite IH.
Qed.

(** X5. Subscribing an observer that is not subscribed and unsubscribing it
    right away gives back the channel as it was: both calls return, each
    prints its line, and the subscriber list, the name and the latest video
    are those before the two calls. *)
Theorem attach_detach_round_trip (observer : ref) (s : YouTubeChannel) :
  addr observer ∉ addrs (_subscribers s) →
  state ((attach observer ;; detach observer)%method s) = s ∧
  result ((attach observer ;; detach observer)%method s) = inl tt ∧
  events ((attach observer ;; detach observer)%method s) =
    [ Printed ("✓ " +:+ str (obj observer) +:+ " subscribed to " +:+ _channel_name s);
      Printed ("✗ " +:+ str (obj observer) +:+ " unsubscribed from " +:+ _channel_name s) ].
Proof.
  intros Hout. pose proof Hout as E%list_contains_false.
  assert (list_contains observer (_subscribers s ++ [observer]) = true) as Hin.
  { apply list_contains_addrs. unfold addrs. rewrite fmap_app, elem_of_app. right. constructor. }
  assert (detach observer (with_subscribers (_subscribers s ++ [observer]) s) =
          (inl tt, s,
           [Printed ("✗ " +:+ str (obj observer) +:+ " unsubscribed from "
                     +:+ _channel_name s)])) as Hd.
  { rewrite detach_present_remove_first by done.
    cbn [with_subscribers _subscribers _channel_name].
    rewrite remove_first_app_new by done. by destruct s. }
  unfold bind. rewrite attach_absent by done. rewrite Hd. done.
Qed.

Lemma attach_detach_round_trip_witness :
  (addr subscriber4 ∉ addrs (_subscribers tech_channel)) ∧
  state ((attach subscriber4 ;; detach subscriber4)%method tech_channel) = tech_channel.
Proof.
  assert (addr subscriber4 ∉ addrs (_subscribers tech_channel)) as Hout.
  { change (3 ∉ [0; 1; 2]). solve_addr_in. }
  destruct (attach_detach_round_trip subscriber4 tech_channel Hout) as (Hst & _).
  split; [exact Hout | exact Hst].
Defined.

(** X6. Unsubscribing an observer and subscribing it again puts it last:
    whatever its place in the list was, and whether it was subscribed or not,
    the subscriber list is afterwards the other subscribers in their order,
    followed by the observer. *)
Theorem detach_attach_moves_last (observer : ref) (s : YouTubeChannel) :
  NoDup (addrs (_subscribers s)) →
  _subscribers (state ((detach observer ;; attach observer)%method s)) =
    filter (λ r, addr r ≠ addr observer) (_subscribers s) ++ [observer] ∧
  result ((detach observer ;; attach observer)%method s) = inl tt.
Proof.
  intros Hnd.
  assert (result (attach observer (state (detach observer s))) = inl tt) as Hres.
  { destruct (list_contains observer (_subscribers (state (detach observer s)))) eqn:E.
    - by rewrite attach_present.
    - by rewrite attach_absent. }
  rewrite (bind_returns _ _ s tt) by apply detach_result.
  split; [| exact Hres].
  change (_subscribers (state (attach observer (state (detach observer s)))) =
          filter (λ r, addr r ≠ addr observer) (_subscribers s) ++ [observer]).
  rewrite attach_subscribers, detach_subscribers.
  cbn [with_subscribers _subscribers]. rewrite remove_first_filter by done.
  assert (list_contains observer (filter (λ r, addr r ≠ addr observer) (_subscribers s))
          = false) as ->; [| done].
  apply list_contains_false. unfold addrs.
  intros (r & Hr & [Hne _]%list_elem_of_filter)%list_elem_of_fmap. by apply Hne.
Qed.

Lemma detach_attach_moves_last_witness :
  NoDup (addrs (_subscribers tech_channel)) ∧
  _subscribers (state ((detach subscriber1 ;; attach subscriber1)%method tech_channel)) =
    [subscriber2; subscriber3; subscriber1].
Proof.
  destruct (detach_attach_moves_last subscriber1 tech_channel tech_channel_NoDup) as [H _].
  split; [exact tech_channel_NoDup | exact H].
Defined.

(** ** Who is subscribed after a sequence of calls *)

Lemma elem_of_addrs_filter a x l :
  a ∈ addrs (filter (λ r, addr r ≠ addr x) l) ↔ a ≠ addr x ∧ a ∈ addrs l.
Proof.
  unfold addrs. rewrite !list_elem_of_fmap. split.
  - intros (r & -> & [Hne Hr]%list_elem_of_filter). split; [done | by exists r].
  - intros [Hne (r & -> & Hr)]. exists r. split; [done |]. by apply list_elem_of_filter.
Qed.

Lemma perform_subscribed a c s :
  NoDup (addrs (_subscribers s)) →
  Forall (λ r, peaceful (obj r)) (_subscribers s) →
  a ∈ addrs (_subscribers (state (perform c s))) ↔
  match c with
  | Attach observer => addr observer = a ∨ a ∈ addrs (_subscribers s)
  | Detach observer => addr observer ≠ a ∧ a ∈ addrs (_subscribers s)
  | _ => a ∈ addrs (_subscribers s)
  end.
Proof.
  intros Hnd Hp. destruct c as [observer|observer|X| |]; cbn [perform].
  - rewrite attach_subscribers. cbn [with_subscribers _subscribers].
    destruct (list_contains observer (_subscribers s)) eqn:E.
    + apply list_contains_addrs in E. split; [by right |]. by intros [<-|?].
    + unfold addrs. rewrite fmap_app, elem_of_app.
      change (addr <$> [observer]) with [addr observer].
      rewrite list_elem_of_singleton. intuition congruence.
  - rewrite detach_subscribers. cbn [with_subscribers _subscribers].
    rewrite remove_first_filter by done. rewrite elem_of_addrs_filter.
    intuition congruence.
  - rewrite upload_video_state; [done |]. by apply peaceful_inert.
  - rewrite notify_state; [done |]. by apply peaceful_inert.
  - done.
Qed.

(** X7. The subscribers are a set kept by the calls of the client.  When
    the observers attached are of classes whose callback never calls the
    channel, then after any sequence of calls on a new channel an
    observer is subscribed exactly when the sequence holds an [attach] of it
    with no [detach] of it after; uploads, notifications and reads of the
    name, and the calls about other observers, do not count. *)
Theorem subscribed_iff_last_call (name : string) (cs : list call) (a : nat) :
  Forall (λ c, ∀ observer, c = Attach observer → peaceful (obj observer)) cs →
  a ∈ addrs (_subscribers (run cs (__init__ name))) ↔ subscribed_after a cs false = true.
Proof.
  intros Hcs.
  assert (∀ s, NoDup (addrs (_subscribers s)) →
               Forall (λ r, peaceful (obj r)) (_subscribers s) →
               a ∈ addrs (_subscribers (run cs s)) ↔
               subscribed_after a cs (bool_decide (a ∈ addrs (_subscribers s))) = true) as H.
  { induction Hcs as [|c cs Hc _ IH]; intros s Hnd Hp.
    - cbn. by rewrite bool_decide_eq_true.
    - cbn [run]. rewrite (IH _ (perform_NoDup c s Hnd) (perform_peaceful c s Hc Hp)).
      pose proof (perform_subscribed a c s Hnd Hp) as Hsub.
      assert (∀ b1 b2 : bool, b1 = b2 →
                subscribed_after a cs b1 = true ↔ subscribed_after a cs b2 = true)
        as Hext by by intros ?? ->.
      destruct c as [observer|observer|X| |]; cbn [subscribed_after]; apply Hext.
      + destruct (decide (addr observer = a)) as [E|E].
        * rewrite (bool_decide_eq_true_2 (addr observer = a)) by done.
          apply bool_decide_eq_true_2, Hsub. by left.
        * rewrite (bool_decide_eq_false_2 (addr observer = a)) by done.
          apply bool_decide_ext. rewrite Hsub. intuition congruence.
      + destruct (decide (addr observer = a)) as [E|E].
        * rewrite (bool_decide_eq_true_2 (addr observer = a)) by done.
          apply bool_decide_eq_false_2. rewrite Hsub. intuition congruence.
        * rewrite (bool_decide_eq_false_2 (addr observer = a)) by done.
          apply bool_decide_ext. rewrite Hsub. intuition congruence.
      + by apply bool_decide_ext.
      + by apply bool_decide_ext.
      + by apply bool_decide_ext. }
  rewrite (H (__init__ name)); [done | apply NoDup_nil_2 | apply Forall_nil_2].
Qed.

Lemma subscribed_iff_last_call_witness :
  Forall (λ c, ∀ observer, c = Attach observer → peaceful (obj observer))
    [Attach subscriber1; Attach subscriber2; Detach subscriber2; UploadVideo "v"] ∧
  subscribed_after 1
    [Attach subscriber1; Attach subscriber2; Detach subscriber2; UploadVideo "v"] false = false ∧
  (1 ∉ addrs (_subscribers
     (run [Attach subscriber1; Attach subscriber2; Detach subscriber2; UploadVideo "v"]
          (__init__ "TechMaster")))) ∧
  0 ∈ addrs (_subscribers
     (run [Attach subscriber1; Attach subscriber2; Detach subscriber2; UploadVideo "v"]
          (__init__ "TechMaster"))).
Proof.
  assert (Forall (λ c, ∀ observer, c = Attach observer → peaceful (obj observer))
            [Attach subscriber1; Attach subscriber2; Detach subscriber2; UploadVideo "v"])
    as Hcs.
  { repeat constructor; intros observer [= <-] || intros observer [=];
      apply repo_class_peaceful; constructor. }
  split_and!; [exact Hcs | reflexivity | |].
  - intros Hin%(subscribed_iff_last_call "TechMaster" _ _ Hcs). discriminate Hin.
  - apply (subscribed_iff_last_call "TechMaster" _ _ Hcs). reflexivity.
Defined.


(** ** Unsubscribing two observers *)

Lemma remove_first_comm x y l :
  addr x ≠ addr y →
  remove_first x (remove_first y l) = remove_first y (remove_first x l).
Proof.
  intros Hxy. induction l as [|z l IH]; [done |].
  rewrite !(remove_first_cons _ z). unfold py_eq.
  case_bool_decide as Ez; case_bool_decide as Ez'; try congruence.
  - rewrite remove_first_cons. unfold py_eq. by rewrite bool_decide_eq_true_2.
  - rewrite remove_first_cons. unfold py_eq. by rewrite bool_decide_eq_true_2.
  - rewrite !remove_first_cons. unfold py_eq.
    rewrite !bool_decide_eq_false_2 by done. by rewrite IH.
Qed.

(** X9. The order in which two different observers are unsubscribed does not
    matter to the channel: either way it ends with the same subscriber list,
    name and latest video. *)
Theorem detach_commutes (x y : ref) (s : YouTubeChannel) :
  addr x ≠ addr y →
  state (detach x (state (detach y s))) = state (detach y (state (detach x s))).
Proof.
  intros Hxy. rewrite !detach_subscribers. cbn [with_subscribers _subscribers
    _channel_name _latest_video]. by rewrite remove_first_comm.
Qed.

Lemma detach_commutes_witness :
  addr subscriber1 ≠ addr subscriber3 ∧
  addrs (_subscribers (state (detach subscriber1 (state (detach subscriber3 tech_channel)))))
    = [1] ∧
  state (detach subscriber1 (state (detach subscriber3 tech_channel))) =
  state (detach subscriber3 (state (detach subscriber1 tech_channel))).
Proof.
  assert (addr subscriber1 ≠ addr subscriber3) as Hne by (cbn; lia).
  split_and!; [exact Hne | reflexivity |].
  exact (detach_commutes subscriber1 subscriber3 tech_channel Hne).
Defined.

(** ** Subscribing calls nobody *)

(** X10. Subscribing and unsubscribing call no observer.  In particular,
    when no subscribed callback subscribes anyone while it runs, an observer
    that subscribes after an upload is not sent the video already uploaded,
    whether that upload returned or raised.  (A callback that subscribes the
    observer during the upload does get it called, within the same
    fan-out.) *)
Theorem attach_replays_nothing (X : string) (observer : ref) (s : YouTubeChannel) :
  invocations (events (attach observer s)) = [] ∧
  invocations (events (detach observer s)) = [] ∧
  (Forall (no_attach X (_channel_name s)) (_subscribers s) →
   addr observer ∉ addrs (_subscribers s) →
   received (addr observer) (events ((upload_video X ;; attach observer)%method s)) = []).
Proof.
  split_and!; [apply attach_invocations | apply detach_invocations |].
  intros Hna Hout. rewrite bind_events, received_app.
  rewrite upload_video_outsider by done.
  destruct (result (upload_video X s)); [| done].
  unfold received. by rewrite attach_invocations.
Qed.

Lemma attach_replays_nothing_witness :
  Forall (no_attach "Advanced Observer Pattern Explained" "TechMaster")
         (_subscribers tech_channel) ∧
  (addr subscriber4 ∉ addrs (_subscribers tech_channel)) ∧
  received (addr subscriber4)
    (events ((upload_video "Advanced Observer Pattern Explained" ;;
              attach subscriber4)%method tech_channel)) = [].
Proof.
  assert (Forall (no_attach "Advanced Observer Pattern Explained" "TechMaster")
            (_subscribers tech_channel)) as Hna.
  { eapply Forall_impl; [exact (tech_channel_inert "Advanced Observer Pattern Explained") |].
    apply inert_no_attach. }
  assert (addr subscriber4 ∉ addrs (_subscribers tech_channel)) as Hout.
  { change (3 ∉ [0; 1; 2]). solve_addr_in. }
  destruct (attach_replays_nothing "Advanced Observer Pattern Explained"
              subscriber4 tech_channel) as (_ & _ & H).
  split_and!; [exact Hna | exact Hout | exact (H Hna Hout)].
Defined.

(** ** Two uploads *)

(** X11. Two uploads in a row are two deliveries: when the callbacks return
    and none of them calls the channel while it runs, every
    subscriber is called with the first title and then with the second
    (twice with the same title if the two are the same), and the channel
    keeps the second as its latest video. *)
Theorem upload_video_twice (X Y : string) (s : YouTubeChannel) :
  NoDup (addrs (_subscribers s)) →
  Forall (inert X (_channel_name s)) (_subscribers s) →
  Forall (inert Y (_channel_name s)) (_subscribers s) →
  Forall (returns X (_channel_name s)) (_subscribers s) →
  Forall (returns Y (_channel_name s)) (_subscribers s) →
  result ((upload_video X ;; upload_video Y)%method s) = inl tt ∧
  _latest_video (state ((upload_video X ;; upload_video Y)%method s)) = Y ∧
  ∀ a, a ∈ addrs (_subscribers s) →
       received a (events ((upload_video X ;; upload_video Y)%method s)) =
         [(X, _channel_name s); (Y, _channel_name s)].
Proof.
  intros Hnd HiX HiY HX HY.
  destruct (notify_returns (with_latest_video X s) HiX HX) as [HresX HinvX].
  destruct (notify_returns (with_latest_video Y (with_latest_video X s)) HiY HY)
    as [HresY HinvY].
  assert (result (upload_video X s) = inl tt) as HrX by by rewrite upload_video_result.
  pose proof (upload_video_state X s HiX) as HsX.
  split_and!.
  - rewrite (bind_returns _ _ s tt) by done. rewrite result_of, HsX.
    by rewrite upload_video_result.
  - rewrite (bind_returns _ _ s tt) by done. rewrite state_of.
    by apply upload_video_frame.
  - intros a Ha. rewrite bind_events, HrX, received_app, HsX.
    unfold received. rewrite !upload_video_invocations, HinvX, HinvY.
    rewrite (received_of_delivery_present a (with_latest_video X s)) by done.
    by rewrite (received_of_delivery_present a
                  (with_latest_video Y (with_latest_video X s))) by done.
Qed.

Lemma upload_video_twice_witness :
  NoDup (addrs (_subscribers tech_channel)) ∧
  Forall (inert "Clean Code Principles in Python" "TechMaster")
         (_subscribers tech_channel) ∧
  Forall (returns "Clean Code Principles in Python" "TechMaster")
         (_subscribers tech_channel) ∧
  received 2 (events ((upload_video "Clean Code Principles in Python" ;;
                       upload_video "Clean Code Principles in Python")%method tech_channel)) =
    [ ("Clean Code Principles in Python", "TechMaster");
      ("Clean Code Principles in Python", "TechMaster") ].
Proof.
  destruct (upload_video_twice "Clean Code Principles in Python"
              "Clean Code Principles in Python" tech_channel tech_channel_NoDup
              (tech_channel_inert "Clean Code Principles in Python")
              (tech_channel_inert "Clean Code Principles in Python")
              (tech_channel_returns "Clean Code Principles in Python")
              (tech_channel_returns "Clean Code Principles in Python")) as (_ & _ & H).
  split_and!; [exact tech_channel_NoDup
              | exact (tech_channel_inert "Clean Code Principles in Python")
              | exact (tech_channel_returns "Clean Code Principles in Python") |].
  apply H. change (2 ∈ [0; 1; 2]). solve_addr_in.
Defined.

(** ** Callbacks that subscribe and unsubscribe *)

Lemma attach_in_callback_is_called :
  (addr subscriber4 ∉ addrs (_subscribers recruiting_channel)) ∧
  received (addr subscriber4)
    (events ((upload_video "Advanced Observer Pattern Explained" ;;
              attach subscriber4)%method recruiting_channel)) =
    [("Advanced Observer Pattern Explained", "TechMaster")].
Proof. split; [| reflexivity]. change (3 ∉ [30]). solve_addr_in. Qed.

Lemma drop_S_sublist {A} k (l : list A) : drop (S k) l `sublist_of` drop k l.
Proof.
  revert k. induction l as [|y l IH]; intros k; [by destruct k |].
  destruct k as [|k]; simpl; rewrite ?drop_0; [by apply sublist_cons | apply IH].
Qed.

Lemma drop_remove_first_sublist k x l :
  drop k (remove_first x l) `sublist_of` drop k l.
Proof.
  revert k. induction l as [|y l IH]; intros k; [done |].
  rewrite remove_first_cons. destruct (py_eq y x).
  - destruct k as [|k]; simpl; rewrite ?drop_0; [by apply sublist_cons | apply drop_S_sublist].
  - destruct k as [|k]; simpl; rewrite ?drop_0; [| apply IH].
    apply sublist_skip. specialize (IH 0). by rewrite !drop_0 in IH.
Qed.

Lemma edits_drop_sublist k sts l :
  Forall (λ st, ∀ observer, st ≠ DoAttach observer) sts →
  drop k (edits sts l) `sublist_of` drop k l.
Proof.
  intros Hsts. revert l. induction Hsts as [|st sts Hst _ IH]; intros l; [done |].
  cbn [edits foldl]. etrans; [apply IH |].
  destruct st as [line|observer|a]; cbn [edit]; [done | by destruct (Hst observer) |].
  destruct (find _ l); [apply drop_remove_first_sublist | done].
Qed.

Lemma for_each_subscriber_calls n i s :
  Forall (λ call, call.1.2 = _latest_video s ∧ call.2 = _channel_name s)
         (invocations (events (for_each_subscriber n i update_subscriber s))) ∧
  (Forall (no_attach (_latest_video s) (_channel_name s)) (_subscribers s) →
   (invocations (events (for_each_subscriber n i update_subscriber s))).*1.*1
     `sublist_of` addrs (drop i (_subscribers s))).
Proof.
  revert i s. induction n as [|n IH]; intros i s.
  { split; [constructor | intros _; apply sublist_nil_l]. }
  cbn [for_each_subscriber]. destruct (_subscribers s !! i) as [x|] eqn:Hx.
  2:{ split; [constructor | intros _; apply sublist_nil_l]. }
  rewrite bind_events, invocations_app, update_subscriber_eq.
  destruct (invoke_spec x (_latest_video s) (_channel_name s) s) as (_ & Hst & Hev).
  destruct (react_spec (steps (call_update (obj x) (_latest_video s) (_channel_name s))) s)
    as (_ & _ & Hnone).
  assert (invocations (events (invoke x (_latest_video s) (_channel_name s) s)) =
          [(addr x, _latest_video s, _channel_name s)]) as ->.
  { rewrite Hev. cbn [invocations]. by rewrite Hnone. }
  rewrite Hst.
  destruct (IH (S i) (with_subscribers
      (edits (steps (call_update (obj x) (_latest_video s) (_channel_name s)))
             (_subscribers s)) s)) as [IH1 IH2].
  cbn [with_subscribers _subscribers _latest_video _channel_name] in IH1, IH2.
  split.
  - destruct (result _); cbn [app]; constructor; try done; constructor.
  - intros Hna. rewrite (drop_S _ _ _ Hx).
    assert (x ∈ _subscribers s) as Hin by by eapply list_elem_of_lookup_2.
    pose proof (proj1 (Forall_forall _ _) Hna x Hin) as Hsteps.
    destruct (result _); cbn [app fmap list_fmap]; [| apply sublist_skip, sublist_nil_l].
    apply sublist_skip. etrans; [apply IH2 |].
    + eapply sublist_Forall; [by apply edits_sublist | done].
    + by apply sublist_addrs, edits_drop_sublist.
Qed.

(** X13. When the subscribed callbacks do nothing to the channel but
    unsubscribe observers, themselves included (they may also print, and
    return or raise), the observers [notify] calls are taken from the
    subscriber list as it was when [notify] started, in the order of that
    list and none more often than it is in the list: some may be passed over,
    none is called out of turn, the calls are never more than the number
    announced, and each carries the latest video and the channel's name. *)
Theorem notify_calls_in_turn (s : YouTubeChannel) :
  (Forall (no_attach (_latest_video s) (_channel_name s)) (_subscribers s) →
   (invocations (events (notify s))).*1.*1 `sublist_of` addrs (_subscribers s) ∧
   length (invocations (events (notify s))) ≤ length (_subscribers s) ∧
   Forall (λ call, call.1.2 = _latest_video s ∧ call.2 = _channel_name s)
          (invocations (events (notify s))))%nat.
Proof.
  destruct (for_each_subscriber_calls (budget 0 s) 0 s) as [H1 H2].
  rewrite drop_0 in H2.
  assert (invocations (events (notify s)) =
          invocations (events (for_each_subscriber (budget 0 s) 0 update_subscriber s)))
    as ->.
  { rewrite notify_eq. unfold fan_out_from.
    by destruct (for_each_subscriber _ 0 update_subscriber s) as [[res s'] ev]. }
  intros Hna. specialize (H2 Hna). split_and!; [done | | done].
  apply sublist_length in H2. unfold addrs in H2. by rewrite !length_fmap in H2.
Qed.

Lemma notify_calls_in_turn_witness :
  Forall (no_attach "" "TechMaster") (_subscribers leaving_channel) ∧
  (invocations (events (notify leaving_channel))).*1.*1 = [20; 2] ∧
  [20; 2] `sublist_of` addrs (_subscribers leaving_channel).
Proof.
  assert (Forall (no_attach "" "TechMaster") (_subscribers leaving_channel)) as Hna.
  { repeat constructor; intros observer; discriminate. }
  destruct (notify_calls_in_turn leaving_channel Hna) as [Hsub _].
  split_and!; [exact Hna | reflexivity | exact Hsub].
Defined.

(** ** [main()] of [observer_pattern.py] *)

(** X12. [main()] of [observer_pattern.py] runs to its end without an
    exception.  Its three uploads
    reach three, two and three subscribers: the first subscriber and the
    third get the three videos, the second only the first, before it
    unsubscribes, and the fourth only the last, after it subscribes.  It
    makes 36 calls of [print], and leaves the channel with the first, third
    and fourth subscribers, in that order. *)
Theorem main_runs :
  result Demo.main = inl tt ∧
  _subscribers (state Demo.main) = [subscriber1; subscriber3; subscriber4] ∧
  _latest_video (state Demo.main) = "Clean Code Principles in Python" ∧
  (invocations (events Demo.main)).*1.*1 = [0; 1; 2; 0; 2; 0; 2; 3] ∧
  received (addr subscriber1) (events Demo.main) =
    [ ("Python Design Patterns Tutorial", "TechMaster");
      ("Advanced Observer Pattern Explained", "TechMaster");
      ("Clean Code Principles in Python", "TechMaster") ] ∧
  received (addr subscriber2) (events Demo.main) =
    [ ("Python Design Patterns Tutorial", "TechMaster") ] ∧
  received (addr subscriber3) (events Demo.main) =
    [ ("Python Design Patterns Tutorial", "TechMaster");
      ("Advanced Observer Pattern Explained", "TechMaster");
      ("Clean Code Principles in Python", "TechMaster") ] ∧
  received (addr subscriber4) (events Demo.main) =
    [ ("Clean Code Principles in Python", "TechMaster") ] ∧
  length (printed_lines (events Demo.main)) = 36.
Proof. split_and!; vm_compute; reflexivity. Qed.

(** ** The demo runs as its transcript shows *)

Example main_invocations :
  invocations (events (main (__init__ "TechMaster"))) =
  [ (0, "Python Design Patterns Tutorial", "TechMaster");
    (1, "Python Design Patterns Tutorial", "TechMaster");
    (2, "Python Design Patterns Tutorial", "TechMaster");
    (0, "Advanced Observer Pattern Explained", "TechMaster");
    (2, "Advanced Observer Pattern Explained", "TechMaster");
    (0, "Clean Code Principles in Python", "TechMaster");
    (2, "Clean Code Principles in Python", "TechMaster");
    (3, "Clean Code Principles in Python", "TechMaster") ].
Proof. vm_compute. reflexivity. Qed.

Example main_second_upload :
  events ((detach subscriber2 ;;
           upload_video "Advanced Observer Pattern Explained")%method tech_channel) =
  [ Printed "✗ MobileAppSubscriber(@bob_dev) unsubscribed from TechMaster";
    Printed "
📹 TechMaster uploaded: 'Advanced Observer Pattern Explained'";
    Printed "
🔔 Notifying 2 subscribers...";
    Invoked 0 "Advanced Observer Pattern Explained" "TechMaster";
    Printed "📧 Email sent to alice@example.com:";
    Printed "   'TechMaster' uploaded 'Advanced Observer Pattern Explained'";
    Invoked 2 "Advanced Observer Pattern Explained" "TechMaster";
    Printed "💬 SMS to +7-777-123-4567:";
    Printed "   TechMaster: 'Advanced Observer Pattern Explained'" ].
Proof. vm_compute. reflexivity. Qed.
